(** * Catena IQS620A LoRaWAN sensor node: uplink codec, downlink
      configuration, sleep policy, reboot deadline and cycle scheduler.

    Shallow embedding of [Catena_Iqs620a_lorawan.ino] (device firmware) and
    of the port-1 / format 0x2f console decoder (JavaScript).

    Conventions.
    - C++ fixed-width integers are [Z] with the wrap-around written out
      ([uint8], [uint16], [int16], [uint32]).
    - A C++ [float] and a JavaScript number are modelled by the rational they
      denote ([Q]); the only float operations the two programs perform on them
      are scalings by 4096, which are exact.
    - Globals of the sketch ([gTxCycle], [gTxCycleCount], [gRebootMs],
      [fProximity], the single [sensorJob] slot, ...) are fields of an
      explicit state record that every callback transforms. *)

From Stdlib Require Import String Ascii.
From Stdlib Require Import ZArith Zbitwise QArith Qround List Bool Lia.
Import ListNotations.
Open Scope Z_scope.

(* ================================================================== *)
(** ** Machine integers *)

Definition uint8 (v : Z) : Z := v mod 256.
Definition uint16 (v : Z) : Z := v mod 65536.
Definition uint32 (v : Z) : Z := v mod 4294967296.
(** Conversion to [int16_t]: two's complement wrap-around. *)
Definition int16 (v : Z) : Z := (v + 32768) mod 65536 - 32768.

(* ================================================================== *)
(** ** Manifest constants of the sketch *)

Definition kMessageFormat : Z := 0x2f.

Module FlagsSensorPort1.
Definition Vbat : Z := Z.shiftl 1 0.
Definition Vcc : Z := Z.shiftl 1 1.
Definition Boot : Z := Z.shiftl 1 2.
Definition SarCh0 : Z := Z.shiftl 1 3.
Definition SarCh1 : Z := Z.shiftl 1 4.
Definition SarCh2 : Z := Z.shiftl 1 5.
Definition Amplitude : Z := Z.shiftl 1 6.
(** [operator|] on the enum class: both sides go through [uint8_t]. *)
Definition or (lhs rhs : Z) : Z := Z.lor (uint8 lhs) (uint8 rhs).
End FlagsSensorPort1.

Definition CATCFG_T_CYCLE : Z := 6 * 60.
Definition CATCFG_T_CYCLE_TEST : Z := 30.
Definition CATCFG_T_CYCLE_INITIAL : Z := 30.
Definition CATCFG_INTERVAL_COUNT_INITIAL : Z := 10.
Definition CATCFG_T_REBOOT : Z := 30 * 24 * 60 * 60.

Definition CATCFG_T_WARMUP : Z := 1.
Definition CATCFG_T_SETTLE : Z := 5.
Definition CATCFG_T_OVERHEAD : Z := CATCFG_T_WARMUP + CATCFG_T_SETTLE + 4.
Definition CATCFG_T_MIN : Z := CATCFG_T_OVERHEAD.
Definition CATCFG_T_MAX : Z :=
  if CATCFG_T_CYCLE <? 60 * 60 then 60 * 60 else CATCFG_T_CYCLE.
Definition CATCFG_INTERVAL_COUNT : Z := 30.

Definition CATCFG_GetInterval (tCycle : Z) : Z :=
  if tCycle <? CATCFG_T_OVERHEAD + 1 then 1 else tCycle - CATCFG_T_OVERHEAD.

Definition CATCFG_T_INTERVAL : Z := CATCFG_GetInterval CATCFG_T_CYCLE.

(* ================================================================== *)
(** ** The transmit buffer *)

Module TxBuffer.

(** The class [TxBuffer_t] comes from the platform library
    ([Catena_TxBuffer.h]), which is not part of the sketch: every
    definition of this module is modelled from the wire contract of the
    specification. *)

(** Modelled from the spec: [TxBuffer_t] itself is missing.  The buffer is
    the list of bytes written so far; the write pointer is its length. *)
Definition t := list Z.

(** Modelled from the spec: [begin] is missing; a fresh message. *)
Definition begin : t := [].

(** Modelled from the spec: [put] is missing; it appends one byte. *)
Definition put (b : t) (c : Z) : t := b ++ [uint8 c].

(** Modelled from the spec: [getp] is missing; the address of the next byte
    to be filled, as an index into the buffer. *)
Definition getp (b : t) : nat := length b.

(** Modelled from the spec: the assignment [*pFlag = c] through a pointer
    obtained from [getp] patches the byte at that index. *)
Fixpoint store (b : t) (p : nat) (c : Z) : t :=
  match b, p with
  | [], _ => []
  | _ :: tl, O => c :: tl
  | x :: tl, S p' => x :: store tl p' c
  end.

(** Modelled from the spec: 16-bit values go most significant byte first
    ("big-endian throughout"). *)
Definition put2 (b : t) (v : Z) : t :=
  put (put b (Z.shiftr v 8)) v.

(** Modelled from the spec: the ranges of the unsigned and of the signed
    16-bit field; a value outside saturates. *)
Definition sat_u16 (v : Z) : Z := Z.max 0 (Z.min 65535 v).
Definition sat_i16 (v : Z) : Z := Z.max (-32768) (Z.min 32767 v).

(** Modelled from the spec: [put2uf] is missing; "counts are unsigned 16-bit
    big-endian". *)
Definition put2uf (b : t) (v : Z) : t := put2 b (sat_u16 v).

(** Modelled from the spec: [put2sf] is missing; "amplitude is signed 16-bit
    big-endian", in two's complement. *)
Definition put2sf (b : t) (v : Z) : t := put2 b (sat_i16 v).

(** Modelled from the spec: the conversion inside [putV] is missing;
    "voltages are signed 16-bit fixed-point, scale 1/4096".  A voltage
    between two grid points goes to the nearest count. *)
Definition volts_to_counts (V : Q) : Z := Qfloor (V * 4096 + (1 # 2)).

(** Modelled from the spec: [putV] is missing; the count of the voltage as
    a signed 16-bit field. *)
Definition putV (b : t) (V : Q) : t := put2 b (sat_i16 (volts_to_counts V)).

(** Modelled from the spec: [getbase] and [getn] are missing; the bytes
    written and their number. *)
Definition getbase (b : t) : list Z := b.
Definition getn (b : t) : nat := length b.

End TxBuffer.

(* ================================================================== *)
(** ** The uplink encoder: [fillBuffer] *)

(** What the collaborators return during one call of [fillBuffer]:
    [gCatena.ReadVbat()], [gCatena.ReadVbus()] and the IQS620A getters. *)
Record Readings : Type := mkReadings {
  ReadVbat : Q;
  ReadVbus : Q;
  getSarCountCh0 : Z;
  getSarCountCh1 : Z;
  getSarCountCh2 : Z;
  getAmplitude : Z
}.

(** [setup_iqs]: [fProximity] records whether [gIQS620A.begin()] succeeded. *)
Definition setup_iqs (iqs_begin : bool) : bool :=
  if negb iqs_begin then false else true.

Definition fillBuffer (fProximity : bool) (r : Readings) : TxBuffer.t :=
  let b := TxBuffer.begin in
  (* insert format byte *)
  let b := TxBuffer.put b kMessageFormat in
  let flag := 0 in
  let pFlag := TxBuffer.getp b in
  let b := TxBuffer.put b 0x00 in (* will be set to the flags *)
  let vBat := ReadVbat r in
  let b := TxBuffer.putV b vBat in
  let flag := FlagsSensorPort1.or flag FlagsSensorPort1.Vbat in
  let vBus := ReadVbus r in
  let b := TxBuffer.putV b vBus in
  let flag := FlagsSensorPort1.or flag FlagsSensorPort1.Vcc in
  let '(b, flag) :=
    if fProximity then
      (* SAR Count *)
      let sarCountCh0 := uint16 (getSarCountCh0 r) in
      let sarCountCh1 := uint16 (getSarCountCh1 r) in
      let sarCountCh2 := uint16 (getSarCountCh2 r) in
      let b := TxBuffer.put2uf b sarCountCh0 in
      let b := TxBuffer.put2uf b sarCountCh1 in
      let b := TxBuffer.put2uf b sarCountCh2 in
      let flag := FlagsSensorPort1.or flag FlagsSensorPort1.SarCh0 in
      let flag := FlagsSensorPort1.or flag FlagsSensorPort1.SarCh1 in
      let flag := FlagsSensorPort1.or flag FlagsSensorPort1.SarCh2 in
      (* Hall Effect Amplitude *)
      let Amplitude := int16 (getAmplitude r) in
      let b := TxBuffer.put2sf b Amplitude in
      let flag := FlagsSensorPort1.or flag FlagsSensorPort1.Amplitude in
      (b, flag)
    else (b, flag) in
  TxBuffer.store b pFlag (uint8 flag).

(* ================================================================== *)
(** ** The console decoder (JavaScript) *)

(** The JavaScript values the decoder can produce: [undefined] (an array
    read past the end), [NaN], or a number. *)
Inductive jsval (A : Type) : Type :=
  | Undefined
  | NaN
  | Num (a : A).
Arguments Undefined {A}.
Arguments NaN {A}.
Arguments Num {A} a.

Module JS.
(** [bytes[i]] *)
Definition index (bytes : list Z) (i : nat) : jsval Z :=
  match nth_error bytes i with
  | Some b => Num b
  | None => Undefined
  end.

(** ToInt32 of a value: [undefined] and [NaN] become 0.  The numbers met
    here are bytes or 16-bit values, which ToInt32 leaves alone. *)
Definition to_int32 (v : jsval Z) : Z :=
  match v with
  | Num a => a
  | _ => 0
  end.

(** [v << n] *)
Definition shl (v : jsval Z) (n : Z) : jsval Z := Num (Z.shiftl (to_int32 v) n).

(** [a + b] on numbers: [undefined] is converted to [NaN], which absorbs. *)
Definition add (a b : jsval Z) : jsval Z :=
  match a, b with
  | Num x, Num y => Num (x + y)
  | _, _ => NaN
  end.

(** [v & m] *)
Definition and (v : jsval Z) (m : Z) : Z := Z.land (to_int32 v) m.

(** Truthiness of a number produced by [&]. *)
Definition truthy (n : Z) : bool := negb (n =? 0).

(** [v === n] for a numeric literal [n]. *)
Definition strict_eq (v : jsval Z) (n : Z) : bool :=
  match v with
  | Num a => a =? n
  | _ => false
  end.

(** [v / 4096.0] *)
Definition div4096 (v : jsval Z) : jsval Q :=
  match v with
  | Num a => Num (inject_Z a / 4096)%Q
  | _ => NaN
  end.
End JS.

Record Parse : Type := mkParse { Parse_bytes : list Z; Parse_i : nat }.

Definition DecodeU16 (P : Parse) : jsval Z * Parse :=
  let i := Parse_i P in
  let bytes := Parse_bytes P in
  let raw := JS.add (JS.shl (JS.index bytes i) 8) (JS.index bytes (i + 1)) in
  (raw, mkParse bytes (i + 2)).

Definition DecodeI16 (P : Parse) : jsval Z * Parse :=
  let '(Vraw, P) := DecodeU16 P in
  (* interpret uint16 as an int16 instead. *)
  let Vraw :=
    if JS.truthy (JS.and Vraw 0x8000)
    then JS.add Vraw (Num (- 0x10000))
    else Vraw in
  (Vraw, P).

Definition DecodeV (P : Parse) : jsval Q * Parse :=
  let '(v, P) := DecodeI16 P in (JS.div4096 v, P).

(** The decoded object: a property that was never assigned is [None]. *)
Record Decoded : Type := mkDecoded {
  vBat : option (jsval Q);
  vBus : option (jsval Q);
  boot : option (jsval Z);
  sarCh0 : option (jsval Z);
  sarCh1 : option (jsval Z);
  sarCh2 : option (jsval Z);
  amplitude : option (jsval Z)
}.

Definition empty_object : Decoded := mkDecoded None None None None None None None.

Definition set_vBat (d : Decoded) v := mkDecoded (Some v) (vBus d) (boot d) (sarCh0 d) (sarCh1 d) (sarCh2 d) (amplitude d).
Definition set_vBus (d : Decoded) v := mkDecoded (vBat d) (Some v) (boot d) (sarCh0 d) (sarCh1 d) (sarCh2 d) (amplitude d).
Definition set_boot (d : Decoded) v := mkDecoded (vBat d) (vBus d) (Some v) (sarCh0 d) (sarCh1 d) (sarCh2 d) (amplitude d).
Definition set_sarCh0 (d : Decoded) v := mkDecoded (vBat d) (vBus d) (boot d) (Some v) (sarCh1 d) (sarCh2 d) (amplitude d).
Definition set_sarCh1 (d : Decoded) v := mkDecoded (vBat d) (vBus d) (boot d) (sarCh0 d) (Some v) (sarCh2 d) (amplitude d).
Definition set_sarCh2 (d : Decoded) v := mkDecoded (vBat d) (vBus d) (boot d) (sarCh0 d) (sarCh1 d) (Some v) (amplitude d).
Definition set_amplitude (d : Decoded) v := mkDecoded (vBat d) (vBus d) (boot d) (sarCh0 d) (sarCh1 d) (sarCh2 d) (Some v).

(** One [if (flags & mask) { decoded.field = read(Parse); }] statement. *)
Definition field_if {A : Type} (flags : jsval Z) (mask : Z)
    (read : Parse -> A * Parse) (set : Decoded -> A -> Decoded)
    (st : Decoded * Parse) : Decoded * Parse :=
  let '(decoded, P) := st in
  if JS.truthy (JS.and flags mask)
  then let '(v, P) := read P in (set decoded v, P)
  else (decoded, P).

(** [bytes[Parse.i++]] *)
Definition next_byte (P : Parse) : jsval Z * Parse :=
  (JS.index (Parse_bytes P) (Parse_i P), mkParse (Parse_bytes P) (Parse_i P + 1)).

(** The body of [Decoder] after the port and format checks; the final
    [Parse] is kept so that the cursor can be observed. *)
Definition Decoder_fields (bytes : list Z) : Decoded * Parse :=
  let decoded := empty_object in
  let P := mkParse bytes 1 in
  (* fetch the bitmap. *)
  let '(flags, P) := next_byte P in
  let st := (decoded, P) in
  let st := field_if flags 0x1 DecodeV set_vBat st in
  let st := field_if flags 0x2 DecodeV set_vBus st in
  let st := field_if flags 0x4 next_byte set_boot st in
  let st := field_if flags 0x8 DecodeU16 set_sarCh0 st in
  let st := field_if flags 0x10 DecodeU16 set_sarCh1 st in
  let st := field_if flags 0x20 DecodeU16 set_sarCh2 st in
  let st := field_if flags 0x40 DecodeI16 set_amplitude st in
  st.

(** [Decoder(bytes, port)]: [None] is JavaScript's [null]. *)
Definition Decoder (bytes : list Z) (port : Z) : option Decoded :=
  if negb (port =? 1) then None
  else
    let uFormat := JS.index bytes 0 in
    if negb (JS.strict_eq uFormat 0x2f) then None
    else Some (fst (Decoder_fields bytes)).

(* ================================================================== *)
(** ** Platform parameters *)

(** The operating-flag masks ([Catena::OPERATING_FLAGS]), the tick rate of
    the LMIC scheduler and the build switch [USBCON] come from the platform
    headers, which are not part of the sketch: they are parameters.  So is
    what the compiled program yields for an [int] expression whose value
    [int] cannot hold ([overflowed_int], applied to that value): the
    language leaves it undefined. *)
Record Platform : Type := mkPlatform {
  fUnattended : Z;
  fManufacturingTest : Z;
  fConfirmedUplink : Z;
  fDisableDeepSleep : Z;
  fQuickLightSleep : Z;
  fDeepSleepTest : Z;
  OSTICKS_PER_SEC : Z;
  USBCON : bool;
  overflowed_int : Z -> Z
}.

(** The range of [int] on the 32-bit target. *)
Definition INT_MAX : Z := 2147483647.
Definition INT_MIN : Z := -2147483648.

(** The result of an [int] operation whose mathematical value is [v]: [v]
    when [int] can hold it, and otherwise whatever the build yields. *)
Definition int_result (pf : Platform) (v : Z) : Z :=
  if (INT_MIN <=? v) && (v <=? INT_MAX) then v else overflowed_int pf v.

(** Two's complement wrap-around to 32 bits, one thing a build may yield
    for an overflowing [int]. *)
Definition int32 (v : Z) : Z := (v + 2147483648) mod 4294967296 - 2147483648.

(** [GetOperatingFlags() & static_cast<uint32_t>(mask)], used as a condition. *)
Definition flag_set (OperatingFlags mask : Z) : bool :=
  negb (Z.land OperatingFlags mask =? 0).

(* ================================================================== *)
(** ** Sleep policy: [checkDeepSleep] *)

Definition checkDeepSleep (pf : Platform) (OperatingFlags : Z) (Serial_dtr : bool) : bool :=
  let fDeepSleepTest_ := flag_set OperatingFlags (fDeepSleepTest pf) in
  if fDeepSleepTest_ then true
  else if USBCON pf && Serial_dtr then false
  else if flag_set OperatingFlags (fDisableDeepSleep pf) then false
  else if flag_set OperatingFlags (fUnattended pf) then true
  else false.

(** The priority table of the sleep policy, as the specification words it. *)
Inductive SleepMode : Type := Deep | Light.

Definition decide_table (deepSleepTest debuggerAttached disableDeepSleep unattended : bool)
  : SleepMode :=
  if deepSleepTest then Deep
  else if debuggerAttached then Light
  else if disableDeepSleep then Light
  else if unattended then Deep
  else Light.

Definition mode_of (fDeepSleep : bool) : SleepMode :=
  if fDeepSleep then Deep else Light.

(* ================================================================== *)
(** ** Reboot deadline *)

(** [(CATCFG_T_REBOOT + os_getRndU2() - 32768) * 1000], stored in the
    [uint32_t] global [gRebootMs].  The enumerator, the promoted 16-bit
    random value and the literals are all [int], so the sum, the difference
    and the product are [int] operations; the conversion to [uint32_t] of
    the final [int] is modulo 2^32. *)
Definition computeRebootMs (pf : Platform) (rnd : Z) : Z :=
  let sum := int_result pf (CATCFG_T_REBOOT + uint16 rnd) in
  let jittered := int_result pf (sum - 32768) in
  uint32 (int_result pf (jittered * 1000)).

(* ================================================================== *)
(** ** Scheduler state *)

Inductive Callback : Type :=
  | settleDoneCb_
  | warmupDoneCb_
  | txNotProvisionedCb_
  | sleepDoneCb_.

(** Calls into the collaborators that matter to the cycle. *)
Inductive Action : Type :=
  | ASendBuffer (buf : list Z) (fConfirmed : bool) (port : Z)
  | AShutdown
  | ASleep (seconds : Z).

Record State : Type := mkState {
  gTxCycle : Z;
  gTxCycleCount : Z;
  gRebootMs : Z;
  fProximity : bool;
  g_fPrintedSleeping : bool;
  (** the single [sensorJob] slot: delay in ticks and callback *)
  sensorJob : option (Z * Callback);
  (** [gCatena.GetOperatingFlags()] *)
  OperatingFlags : Z;
  (** [gLoRaWAN.IsProvisioned()] *)
  IsProvisioned : bool;
  (** a [SendBuffer] whose completion has not been delivered yet *)
  sendPending : bool;
  (** collaborator calls so far, most recent first *)
  actions : list Action
}.

Definition with_timing (s : State) (cycle count : Z) : State :=
  mkState cycle count (gRebootMs s) (fProximity s) (g_fPrintedSleeping s)
    (sensorJob s) (OperatingFlags s) (IsProvisioned s) (sendPending s) (actions s).

Definition with_job (s : State) (j : option (Z * Callback)) : State :=
  mkState (gTxCycle s) (gTxCycleCount s) (gRebootMs s) (fProximity s)
    (g_fPrintedSleeping s) j (OperatingFlags s) (IsProvisioned s) (sendPending s)
    (actions s).

Definition with_printed (s : State) (b : bool) : State :=
  mkState (gTxCycle s) (gTxCycleCount s) (gRebootMs s) (fProximity s) b
    (sensorJob s) (OperatingFlags s) (IsProvisioned s) (sendPending s) (actions s).

Definition with_pending (s : State) (b : bool) : State :=
  mkState (gTxCycle s) (gTxCycleCount s) (gRebootMs s) (fProximity s)
    (g_fPrintedSleeping s) (sensorJob s) (OperatingFlags s) (IsProvisioned s) b
    (actions s).

Definition with_provisioned (s : State) (b : bool) : State :=
  mkState (gTxCycle s) (gTxCycleCount s) (gRebootMs s) (fProximity s)
    (g_fPrintedSleeping s) (sensorJob s) (OperatingFlags s) b (sendPending s)
    (actions s).

Definition act (s : State) (a : Action) : State :=
  mkState (gTxCycle s) (gTxCycleCount s) (gRebootMs s) (fProximity s)
    (g_fPrintedSleeping s) (sensorJob s) (OperatingFlags s) (IsProvisioned s)
    (sendPending s) (a :: actions s).

(** [os_setTimedCallback(&sensorJob, os_getTime() + delay, cb)]: the slot
    holds one callback; arming it replaces whatever was pending. *)
Definition os_setTimedCallback (s : State) (delay : Z) (cb : Callback) : State :=
  with_job s (Some (delay, cb)).

Definition sec2osticks (pf : Platform) (sec : Z) : Z := sec * OSTICKS_PER_SEC pf.

(** What the collaborators return while one callback runs. *)
Record Inputs : Type := mkInputs {
  millis : Z;
  Serial_dtr : bool;
  readings : Readings;
  os_getRndU2 : Z;
  iqs_begin : bool
}.

(* ================================================================== *)
(** ** Downlink configuration: [receiveMessage], [setTxCycleTime] *)

Definition setTxCycleTime (s : State) (txCycle txCount : Z) : State :=
  with_timing s txCycle txCount.

(** The branch [receiveMessage] leaves through, i.e. the diagnostic it prints. *)
Inductive RxOutcome : Type :=
  | RxMacMessage      (* "MAC message:" *)
  | RxInvalid         (* "invalid message port/length" *)
  | RxOutOfRange      (* "tx cycle time out of range" *)
  | RxAccepted.       (* setTxCycleTime was called *)

(** [pMessage[k]] for [k] below [nMessage]. *)
Definition msg_at (pMessage : list Z) (k : nat) : Z := uint8 (nth k pMessage 0).

Definition receiveMessage (s : State) (port : Z) (pMessage : list Z)
  : RxOutcome * State :=
  let nMessage := Z.of_nat (length pMessage) in
  if port =? 0 then (RxMacMessage, s)
  else if negb ((port =? 1) && (2 <=? nMessage) && (nMessage <=? 3))
  then (RxInvalid, s)
  else
    let txCycle := Z.lor (Z.shiftl (msg_at pMessage 0) 8) (msg_at pMessage 1) in
    if (txCycle <? CATCFG_T_MIN) || (txCycle >? CATCFG_T_MAX)
    then (RxOutOfRange, s)
    else
      (* byte [2], if present, is the repeat count.
         explicitly sending zero causes it to stick. *)
      let txCount := CATCFG_INTERVAL_COUNT in
      let txCount := if nMessage >=? 3 then msg_at pMessage 2 else txCount in
      (RxAccepted, setTxCycleTime s txCycle txCount).

(* ================================================================== *)
(** ** The measurement cycle *)

Definition updateSleepCounters (s : State) : State :=
  if gTxCycleCount s >? 1 then
    (* values greater than one are decremented and ultimately reset to default. *)
    with_timing s (gTxCycle s) (uint32 (gTxCycleCount s - 1))
  else if gTxCycleCount s =? 1 then
    with_timing s CATCFG_T_CYCLE 0
  else
    (* it's zero. Leave it alone. *)
    s.

Definition startSendingUplink (pf : Platform) (s : State) (inp : Inputs) : State :=
  let b := fillBuffer (fProximity s) (readings inp) in
  let fConfirmed := flag_set (OperatingFlags s) (fConfirmedUplink pf) in
  let kUplinkPort := 1 in
  with_pending (act s (ASendBuffer (TxBuffer.getbase b) fConfirmed kUplinkPort)) true.

Definition sendBufferDoneCb (pf : Platform) (s : State) (fStatus : bool) : State :=
  let pFn := settleDoneCb_ in
  let '(pFn, s) :=
    if negb fStatus then
      if negb (IsProvisioned s) then
        (* we'll talk about it at the callback; but prevent join attempts now. *)
        (txNotProvisionedCb_, act s AShutdown)
      else (pFn, s)
    else (pFn, s) in
  os_setTimedCallback s (sec2osticks pf CATCFG_T_SETTLE) pFn.

Definition txNotProvisionedCb (s : State) : State := act s AShutdown.

Definition doSleepAlert (s : State) (fDeepSleep : bool) : State :=
  with_printed s true.

Definition sleepDoneCb (pf : Platform) (s : State) : State :=
  os_setTimedCallback s (sec2osticks pf CATCFG_T_WARMUP) warmupDoneCb_.

Definition doDeepSleep (pf : Platform) (s : State) : State :=
  let fDeepSleepTest_ := flag_set (OperatingFlags s) (fDeepSleepTest pf) in
  let sleepInterval :=
    CATCFG_GetInterval (if fDeepSleepTest_ then CATCFG_T_CYCLE_TEST else gTxCycle s) in
  let s := act s (ASleep sleepInterval) in
  (* and now... we're awake again. trigger another measurement *)
  sleepDoneCb pf s.

Definition doLightSleep (pf : Platform) (s : State) : State :=
  let interval := sec2osticks pf (CATCFG_GetInterval (gTxCycle s)) in
  let interval :=
    if flag_set (OperatingFlags s) (fQuickLightSleep pf) then 1 else interval in
  os_setTimedCallback s interval sleepDoneCb_.

(** A callback either returns or ends in [NVIC_SystemReset()]. *)
Inductive Outcome : Type :=
  | Continue (s : State)
  | SystemReset.

Definition settleDoneCb (pf : Platform) (s : State) (inp : Inputs) : Outcome :=
  let fDeepSleep := checkDeepSleep pf (OperatingFlags s) (Serial_dtr inp) in
  if uint32 (millis inp) >? gRebootMs s then
    (* time to reboot *)
    SystemReset
  else
    let s := if negb (g_fPrintedSleeping s) then doSleepAlert s fDeepSleep else s in
    (* count what we're up to *)
    let s := updateSleepCounters s in
    Continue (if fDeepSleep then doDeepSleep pf s else doLightSleep pf s).

Definition warmupDoneCb (pf : Platform) (s : State) (inp : Inputs) : State :=
  startSendingUplink pf s inp.

(** [setup_uplink] *)
Definition setup_uplink (pf : Platform) (s : State) (inp : Inputs) : State :=
  (* figure out when to reboot *)
  let s := mkState (gTxCycle s) (gTxCycleCount s) (computeRebootMs pf (os_getRndU2 inp))
             (fProximity s) (g_fPrintedSleeping s) (sensorJob s) (OperatingFlags s)
             (IsProvisioned s) (sendPending s) (actions s) in
  (* trigger a join by sending the first packet *)
  if negb (flag_set (OperatingFlags s) (fManufacturingTest pf)) then
    if negb (IsProvisioned s) then s
    else startSendingUplink pf s inp
  else s.

(** [setup], from the point where [setup_platform] is past its wait for the
    USB host (see [setup_from_reset] for the wait): the state after boot.
    The operating flags and the provisioning live in non-volatile storage
    and survive; every global of the sketch starts afresh.  The record of
    collaborator calls is carried over, so that it covers the whole life of
    the device. *)
Definition setup (pf : Platform) (flags : Z) (provisioned : bool)
    (history : list Action) (inp : Inputs) : State :=
  let s := mkState 0 0 0 false false None flags provisioned false history in
  (* setup_platform *)
  let s := setTxCycleTime s CATCFG_T_CYCLE_INITIAL CATCFG_INTERVAL_COUNT_INITIAL in
  (* setup_iqs *)
  let s := mkState (gTxCycle s) (gTxCycleCount s) (gRebootMs s)
             (setup_iqs (iqs_begin inp)) (g_fPrintedSleeping s) (sensorJob s)
             (OperatingFlags s) (IsProvisioned s) (sendPending s) (actions s) in
  setup_uplink pf s inp.

(** The wait at the head of [setup_platform]: in a build with USB, unless
    the unattended flag is set, [while (!Serial) yield();] runs until a host
    opens the serial port.  [Serial_opens] tells whether that ever happens;
    the result tells whether the wait ends. *)
Definition wait_for_Serial (pf : Platform) (flags : Z) (Serial_opens : bool) : bool :=
  if USBCON pf && negb (flag_set flags (fUnattended pf)) then Serial_opens else true.

(** [setup] from reset, the wait included: [None] when the sketch never
    gets past the wait, and then nothing else of [setup] runs. *)
Definition setup_from_reset (pf : Platform) (flags : Z) (provisioned : bool)
    (history : list Action) (inp : Inputs) (Serial_opens : bool) : option State :=
  if wait_for_Serial pf flags Serial_opens
  then Some (setup pf flags provisioned history inp)
  else None.

(** Everything that can make the sketch run. *)
Inductive Event : Type :=
  | EvTimer (inp : Inputs)          (* the armed [sensorJob] expires *)
  | EvSendDone (fStatus : bool)     (* the transport completes a send *)
  | EvDownlink (port : Z) (msg : list Z)
  | EvLoop (inp : Inputs)           (* one pass of [loop] *)
  | EvBoot (inp : Inputs)           (* power cycle or external reset *)
  | EvConfigure (provisioned : bool). (* provisioning changed from outside *)

Definition run_callback (pf : Platform) (s : State) (cb : Callback) (inp : Inputs)
  : Outcome :=
  match cb with
  | settleDoneCb_ => settleDoneCb pf s inp
  | warmupDoneCb_ => Continue (warmupDoneCb pf s inp)
  | txNotProvisionedCb_ => Continue (txNotProvisionedCb s)
  | sleepDoneCb_ => Continue (sleepDoneCb pf s)
  end.

Definition step (pf : Platform) (s : State) (ev : Event) : State :=
  match ev with
  | EvTimer inp =>
      match sensorJob s with
      | None => s  (* nothing armed: nothing fires *)
      | Some (_, cb) =>
          match run_callback pf (with_job s None) cb inp with
          | Continue s' => s'
          | SystemReset =>
              setup pf (OperatingFlags s) (IsProvisioned s) (actions s) inp
          end
      end
  | EvSendDone fStatus =>
      (* the completion is delivered once per send *)
      if sendPending s then sendBufferDoneCb pf (with_pending s false) fStatus
      else s
  | EvDownlink port msg => snd (receiveMessage s port msg)
  | EvLoop inp =>
      (* for mfg test, don't tx, just fill: the buffer is dropped *)
      s
  | EvBoot inp => setup pf (OperatingFlags s) (IsProvisioned s) (actions s) inp
  | EvConfigure provisioned => with_provisioned s provisioned
  end.

Fixpoint run (pf : Platform) (s : State) (evs : list Event) : State :=
  match evs with
  | [] => s
  | ev :: evs' => run pf (step pf s ev) evs'
  end.

(** Number of transmit attempts recorded in a state. *)
Fixpoint sends (l : list Action) : nat :=
  match l with
  | [] => O
  | ASendBuffer _ _ _ :: l' => S (sends l')
  | _ :: l' => sends l'
  end.

(** The external events that restore provisioning. *)
Definition restores_provisioning (ev : Event) : bool :=
  match ev with
  | EvConfigure provisioned => provisioned
  | _ => false
  end.

(* ================================================================== *)
(** ** Samples and the wire layout *)

Inductive FieldTag : Type :=
  | BatteryVoltage | BusVoltage | BootCount | SarCh0 | SarCh1 | SarCh2 | HallAmplitude.

(** All tags, in ascending order. *)
Definition all_tags : list FieldTag :=
  [BatteryVoltage; BusVoltage; BootCount; SarCh0; SarCh1; SarCh2; HallAmplitude].

(** Bit number of a tag in the flags byte. *)
Definition tag_bit (t : FieldTag) : Z :=
  match t with
  | BatteryVoltage => 0 | BusVoltage => 1 | BootCount => 2
  | SarCh0 => 3 | SarCh1 => 4 | SarCh2 => 5 | HallAmplitude => 6
  end.

Definition tag_mask (t : FieldTag) : Z := Z.shiftl 1 (tag_bit t).

(** Width of a field on the wire, in bytes. *)
Definition tag_width (t : FieldTag) : nat :=
  match t with
  | BootCount => 1%nat
  | _ => 2%nat
  end.

(** A sample: one optional value per field; [None] is an absent field.
    Voltages are in volts. *)
Record Sample : Type := mkSample {
  s_vBat : option Q;
  s_vBus : option Q;
  s_boot : option Z;
  s_sarCh0 : option Z;
  s_sarCh1 : option Z;
  s_sarCh2 : option Z;
  s_amplitude : option Z
}.

Definition is_Some {A : Type} (o : option A) : bool :=
  match o with
  | Some _ => true
  | None => false
  end.

Definition has_field (s : Sample) (t : FieldTag) : bool :=
  match t with
  | BatteryVoltage => is_Some (s_vBat s)
  | BusVoltage => is_Some (s_vBus s)
  | BootCount => is_Some (s_boot s)
  | SarCh0 => is_Some (s_sarCh0 s)
  | SarCh1 => is_Some (s_sarCh1 s)
  | SarCh2 => is_Some (s_sarCh2 s)
  | HallAmplitude => is_Some (s_amplitude s)
  end.

Definition opt_bytes {A : Type} (enc : TxBuffer.t -> A -> TxBuffer.t) (o : option A)
  : list Z :=
  match o with
  | Some v => enc TxBuffer.begin v
  | None => []
  end.

(** The bytes a field of the sample occupies in the payload. *)
Definition field_bytes (s : Sample) (t : FieldTag) : list Z :=
  match t with
  | BatteryVoltage => opt_bytes TxBuffer.putV (s_vBat s)
  | BusVoltage => opt_bytes TxBuffer.putV (s_vBus s)
  | BootCount => opt_bytes TxBuffer.put (s_boot s)
  | SarCh0 => opt_bytes TxBuffer.put2uf (s_sarCh0 s)
  | SarCh1 => opt_bytes TxBuffer.put2uf (s_sarCh1 s)
  | SarCh2 => opt_bytes TxBuffer.put2uf (s_sarCh2 s)
  | HallAmplitude => opt_bytes TxBuffer.put2sf (s_amplitude s)
  end.

(** Union of the tags of the fields that are present. *)
Definition flags_of (s : Sample) : Z :=
  fold_right Z.lor 0 (map tag_mask (filter (has_field s) all_tags)).

(** The encoder as the specification words it (two passes): format byte,
    flags byte, then the present fields in ascending tag order. *)
Definition encode (s : Sample) : list Z :=
  kMessageFormat :: flags_of s :: flat_map (field_bytes s) all_tags.

(** The sample [fillBuffer] serialises: the values of its local variables. *)
Definition sample_of (fProximity : bool) (r : Readings) : Sample :=
  let sensor (v : Z) := if fProximity then Some v else None in
  mkSample (Some (ReadVbat r)) (Some (ReadVbus r)) None
    (sensor (uint16 (getSarCountCh0 r)))
    (sensor (uint16 (getSarCountCh1 r)))
    (sensor (uint16 (getSarCountCh2 r)))
    (sensor (int16 (getAmplitude r))).

(** A voltage the 16-bit fixed-point field can carry: a multiple of
    1/4096 V in [-8 V, 8 V). *)
Definition volts_representable (V : Q) : bool :=
  let n := Qfloor (V * 4096) in
  Qeq_bool (inject_Z n) (V * 4096) && (-32768 <=? n) && (n <=? 32767).

Definition in_range (lo hi : Z) (o : option Z) : bool :=
  match o with
  | Some v => (lo <=? v) && (v <=? hi)
  | None => true
  end.

Definition opt_volts_ok (o : option Q) : bool :=
  match o with
  | Some V => volts_representable V
  | None => true
  end.

(** A valid sample: every present value fits its field. *)
Definition valid_sample (s : Sample) : bool :=
  opt_volts_ok (s_vBat s) && opt_volts_ok (s_vBus s)
  && in_range 0 255 (s_boot s)
  && in_range 0 65535 (s_sarCh0 s) && in_range 0 65535 (s_sarCh1 s)
  && in_range 0 65535 (s_sarCh2 s)
  && in_range (-32768) 32767 (s_amplitude s).

(** A decoded property against a sample field: both absent, or both
    present with the same number. *)
Definition field_is {A : Type} (same : A -> A -> Prop)
    (d : option (jsval A)) (v : option A) : Prop :=
  match d, v with
  | None, None => True
  | Some (Num x), Some y => same x y
  | _, _ => False
  end.

(** The decoded object equals the sample, field for field. *)
Definition same_sample (d : Decoded) (s : Sample) : Prop :=
  field_is Qeq (vBat d) (s_vBat s) /\
  field_is Qeq (vBus d) (s_vBus s) /\
  field_is eq (boot d) (s_boot s) /\
  field_is eq (sarCh0 d) (s_sarCh0 s) /\
  field_is eq (sarCh1 d) (s_sarCh1 s) /\
  field_is eq (sarCh2 d) (s_sarCh2 s) /\
  field_is eq (amplitude d) (s_amplitude s).

(** What the decoder computes from two consecutive bytes. *)
Definition be16 (hi lo : Z) : Z := Z.shiftl hi 8 + lo.

Definition sign16 (raw : Z) : Z :=
  if JS.truthy (Z.land raw 0x8000) then raw + - 0x10000 else raw.

(** A payload as in the scenario of the specification: 3.3 V battery (on
    the 1/4096 V grid), 5 V bus, counts 120, 80, 40 and amplitude -15. *)
Definition scenario_readings : Readings :=
  mkReadings (13517 # 4096) 5 120 80 40 (-15).

(** ** What the decoder consumes *)

(** [flags & mask] for the mask of a tag, as a condition. *)
Definition flagged (flags : jsval Z) (t : FieldTag) : bool :=
  JS.truthy (JS.and flags (tag_mask t)).

Definition width_if_flagged (flags : jsval Z) (t : FieldTag) : nat :=
  if flagged flags t then tag_width t else 0%nat.

(** Index at which the field [t] starts: two header bytes, then the widths
    of the flagged fields with a smaller tag. *)
Definition offset (flags : jsval Z) (t : FieldTag) : nat :=
  2 + list_sum (map (width_if_flagged flags)
                  (filter (fun t' => tag_bit t' <? tag_bit t) all_tags)).

(** Index after the last flagged field. *)
Definition consumed (flags : jsval Z) : nat :=
  2 + list_sum (map (width_if_flagged flags) all_tags).

(** The property a flagged field gets: what [read] returns at the field's
    offset. *)
Definition read_if {A : Type} (flags : jsval Z) (t : FieldTag)
    (read : Parse -> A * Parse) (bytes : list Z) : option A :=
  if flagged flags t then Some (fst (read (mkParse bytes (offset flags t)))) else None.

(** A payload is truncated when it is shorter than its flags byte announces. *)
Definition truncated (bytes : list Z) : bool :=
  (length bytes <? consumed (JS.index bytes 1))%nat.

(** ** Instances and iterated cycles *)

(** A platform to evaluate the model on: six distinct flag bits, 32768
    scheduler ticks per second, a build with USB, in which an overflowing
    [int] comes out as [INT_MAX]. *)
Definition sample_platform : Platform :=
  mkPlatform (Z.shiftl 1 0) (Z.shiftl 1 1) (Z.shiftl 1 16) (Z.shiftl 1 17)
    (Z.shiftl 1 18) (Z.shiftl 1 19) 32768 true (fun _ => INT_MAX).

(** The same platform built so that [int] arithmetic wraps around. *)
Definition wrapping_platform : Platform :=
  mkPlatform (Z.shiftl 1 0) (Z.shiftl 1 1) (Z.shiftl 1 16) (Z.shiftl 1 17)
    (Z.shiftl 1 18) (Z.shiftl 1 19) 32768 true int32.

Definition sample_inputs : Inputs :=
  mkInputs 60000 false scenario_readings 12345 true.

(** A state in the middle of a run: initial cadence, sensor found, a send
    under way. *)
Definition sample_state : State :=
  mkState CATCFG_T_CYCLE_INITIAL CATCFG_INTERVAL_COUNT_INITIAL
    (computeRebootMs sample_platform 12345) true false None 0 true true [].

(** [n] settle phases in a row, as far as the counters are concerned. *)
Fixpoint cycles (n : nat) (s : State) : State :=
  match n with
  | O => s
  | S n' => cycles n' (updateSleepCounters s)
  end.

(** The big-endian interval carried by the first two bytes of a downlink. *)
Definition interval_of (pMessage : list Z) : Z :=
  256 * msg_at pMessage 0 + msg_at pMessage 1.

(** The state a failed, unprovisioned send leaves behind: nothing in flight
    and nothing armed but the "not provisioned" notice. *)
Definition parked (s : State) : Prop :=
  IsProvisioned s = false /\
  sendPending s = false /\
  (sensorJob s = None \/ exists d, sensorJob s = Some (d, txNotProvisionedCb_)).

(** An unprovisioned device whose first send fails, then: the notice fires,
    timers expire, a downlink arrives, the device is restarted and timers
    expire again. *)
Definition unprovisioned_state : State :=
  mkState CATCFG_T_CYCLE_INITIAL CATCFG_INTERVAL_COUNT_INITIAL
    (computeRebootMs sample_platform 12345) true false None 0 false true
    [ASendBuffer (fillBuffer true scenario_readings) false 1].

Definition quiet_events : list Event :=
  [EvTimer sample_inputs; EvTimer sample_inputs; EvDownlink 1 [0x00; 0x1e];
   EvLoop sample_inputs; EvBoot sample_inputs; EvTimer sample_inputs;
   EvSendDone true; EvConfigure false; EvTimer sample_inputs].

(** ** Base name of the source file: [filebasename] *)

(** A C string is modelled by the characters before its terminating NUL; a
    pointer into it is the suffix that starts there. *)
Definition is_separator (c : ascii) : bool :=
  Ascii.eqb c (ascii_of_nat 47) || Ascii.eqb c (ascii_of_nat 92).

(** The two-argument [filebasename(s, p)]: [s] is what to return if no
    directory separator is found in [p]. *)
Fixpoint filebasename2 (s p : string) : string :=
  match p with
  | EmptyString => s
  | String c p' =>
      if is_separator c then filebasename2 p' p' else filebasename2 s p'
  end.

(** The one-argument [filebasename(s)]. *)
Definition filebasename (s : string) : string := filebasename2 s s.

(** No ['/'] and no ['\'] in a string. *)
Fixpoint no_separator (s : string) : bool :=
  match s with
  | EmptyString => true
  | String c s' => negb (is_separator c) && no_separator s'
  end.

(** ** Invariants of the scheduler *)

(** The cadence is within the bounds a downlink may set, and the repeat
    count fits the byte it comes from. *)
Definition timing_ok (s : State) : Prop :=
  CATCFG_T_MIN <= gTxCycle s <= CATCFG_T_MAX /\ 0 <= gTxCycleCount s <= 255.

(** While a send awaits its completion no timed callback is armed. *)
Definition one_activity (s : State) : Prop :=
  sendPending s = true -> sensorJob s = None.

(** Manufacturing test: nothing armed, nothing in flight. *)
Definition bench_idle (pf : Platform) (s : State) : Prop :=
  flag_set (OperatingFlags s) (fManufacturingTest pf) = true /\
  sensorJob s = None /\ sendPending s = false.

(** What one event may add to the record of sends: nothing, or one send
    that leaves its completion awaited and no callback armed. *)
Definition at_most_one_send (s s' : State) : Prop :=
  sends (actions s') = sends (actions s) \/
  (sends (actions s') = S (sends (actions s)) /\
   sendPending s' = true /\ sensorJob s' = None).

(** ** What the decoder can return *)

(** A byte of a payload. *)
Definition is_byte (b : Z) : Prop := 0 <= b < 256.

(** An unsigned 16-bit property: absent, [NaN] (read past the end) or a
    number in 0..65535. *)
Definition u16_or_NaN (o : option (jsval Z)) : Prop :=
  match o with
  | None | Some NaN => True
  | Some (Num v) => 0 <= v <= 65535
  | Some Undefined => False
  end.

(** A signed 16-bit property. *)
Definition i16_or_NaN (o : option (jsval Z)) : Prop :=
  match o with
  | None | Some NaN => True
  | Some (Num v) => -32768 <= v <= 32767
  | Some Undefined => False
  end.

(** A voltage property: a signed 16-bit count over 4096, so within
    [-8 V, 8 V). *)
Definition volts_or_NaN (o : option (jsval Q)) : Prop :=
  match o with
  | None | Some NaN => True
  | Some (Num q) =>
      (exists n, -32768 <= n <= 32767 /\ q = (inject_Z n / 4096)%Q) /\
      (-8 <= q)%Q /\ (q < 8)%Q
  | Some Undefined => False
  end.

(** The boot counter property: absent, [undefined] (read past the end) or
    a byte. *)
Definition byte_or_undefined (o : option (jsval Z)) : Prop :=
  match o with
  | None | Some Undefined => True
  | Some (Num v) => 0 <= v < 256
  | Some NaN => False
  end.

(** ** Well-formed payloads *)

(** A payload as the wire format defines it: bytes, format 0x2f, bit 7 of
    the flags clear, and exactly the flagged fields after the flags byte. *)
Definition well_formed (bytes : list Z) : Prop :=
  Forall is_byte bytes /\
  JS.index bytes 0 = Num 0x2f /\
  JS.and (JS.index bytes 1) 0x80 = 0 /\
  length bytes = consumed (JS.index bytes 1).

(** The two bytes of a decoded 16-bit number, most significant first. *)
Definition bytes_of_number (o : option (jsval Z)) : list Z :=
  match o with
  | Some (Num v) => [uint8 (Z.shiftr v 8); uint8 v]
  | _ => []
  end.

(** The two bytes of a decoded voltage: those of its count, the numerator
    over 4096. *)
Definition bytes_of_volts (o : option (jsval Q)) : list Z :=
  match o with
  | Some (Num q) => [uint8 (Z.shiftr (Qnum q) 8); uint8 (Qnum q)]
  | _ => []
  end.

Definition byte_of_boot (o : option (jsval Z)) : list Z :=
  match o with
  | Some (Num v) => [v]
  | _ => []
  end.

Definition bit_if {A : Type} (o : option A) (mask : Z) : Z :=
  if is_Some o then mask else 0.

(** The payload a decoded object comes from: the properties present give
    the flags, their values give the bytes. *)
Definition payload_of (d : Decoded) : list Z :=
  0x2f
  :: Z.lor (bit_if (vBat d) 0x1) (Z.lor (bit_if (vBus d) 0x2)
       (Z.lor (bit_if (boot d) 0x4) (Z.lor (bit_if (sarCh0 d) 0x8)
         (Z.lor (bit_if (sarCh1 d) 0x10) (Z.lor (bit_if (sarCh2 d) 0x20)
           (bit_if (amplitude d) 0x40))))))
  :: bytes_of_volts (vBat d) ++ bytes_of_volts (vBus d) ++ byte_of_boot (boot d)
     ++ bytes_of_number (sarCh0 d) ++ bytes_of_number (sarCh1 d)
     ++ bytes_of_number (sarCh2 d) ++ bytes_of_number (amplitude d).

(** ** Peripherals around deep sleep *)

(** Which of the interfaces the sketch suspends are begun: [Serial], [Wire],
    [SPI] and the flash bus [gSPI2]. *)
Record Peripherals : Type := mkPeripherals {
  Serial_begun : bool;
  Wire_begun : bool;
  SPI_begun : bool;
  gSPI2_begun : bool
}.

(** [setup_flash]: [found] is the result of [gFlash.begin(&gSPI2, ...)];
    the result is [fFlash] and the peripherals.  Without a flash the bus is
    ended. *)
Definition setup_flash (found : bool) (p : Peripherals) : bool * Peripherals :=
  if found then (true, p)
  else (false, mkPeripherals (Serial_begun p) (Wire_begun p) (SPI_begun p) false).

Definition deepSleepPrepare (fFlash : bool) (p : Peripherals) : Peripherals :=
  (* Serial.end() *)
  let p := mkPeripherals false (Wire_begun p) (SPI_begun p) (gSPI2_begun p) in
  (* Wire.end() *)
  let p := mkPeripherals (Serial_begun p) false (SPI_begun p) (gSPI2_begun p) in
  (* SPI.end() *)
  let p := mkPeripherals (Serial_begun p) (Wire_begun p) false (gSPI2_begun p) in
  if fFlash
  then mkPeripherals (Serial_begun p) (Wire_begun p) (SPI_begun p) false
  else p.

Definition deepSleepRecovery (fFlash : bool) (p : Peripherals) : Peripherals :=
  (* Serial.begin() *)
  let p := mkPeripherals true (Wire_begun p) (SPI_begun p) (gSPI2_begun p) in
  (* Wire.begin() *)
  let p := mkPeripherals (Serial_begun p) true (SPI_begun p) (gSPI2_begun p) in
  (* SPI.begin() *)
  let p := mkPeripherals (Serial_begun p) (Wire_begun p) true (gSPI2_begun p) in
  if fFlash
  then mkPeripherals (Serial_begun p) (Wire_begun p) (SPI_begun p) true
  else p.

(** ** What a property of the decoded object holds *)

(** The property of field [t] was never assigned. *)
Definition field_absent (d : Decoded) (t : FieldTag) : Prop :=
  match t with
  | BatteryVoltage => vBat d = None
  | BusVoltage => vBus d = None
  | BootCount => boot d = None
  | SarCh0 => sarCh0 d = None
  | SarCh1 => sarCh1 d = None
  | SarCh2 => sarCh2 d = None
  | HallAmplitude => amplitude d = None
  end.

(** The mark of a read past the end of the payload: [NaN] for the 16-bit
    fields, [undefined] for the boot counter. *)
Definition field_past_end (d : Decoded) (t : FieldTag) : Prop :=
  match t with
  | BatteryVoltage => vBat d = Some NaN
  | BusVoltage => vBus d = Some NaN
  | BootCount => boot d = Some Undefined
  | SarCh0 => sarCh0 d = Some NaN
  | SarCh1 => sarCh1 d = Some NaN
  | SarCh2 => sarCh2 d = Some NaN
  | HallAmplitude => amplitude d = Some NaN
  end.

(** The property of field [t] is a number. *)
Definition field_number (d : Decoded) (t : FieldTag) : Prop :=
  match t with
  | BatteryVoltage => exists q, vBat d = Some (Num q)
  | BusVoltage => exists q, vBus d = Some (Num q)
  | BootCount => exists v, boot d = Some (Num v)
  | SarCh0 => exists v, sarCh0 d = Some (Num v)
  | SarCh1 => exists v, sarCh1 d = Some (Num v)
  | SarCh2 => exists v, sarCh2 d = Some (Num v)
  | HallAmplitude => exists v, amplitude d = Some (Num v)
  end.

(* ================================================================== *)
(** * Properties *)

(** ** Encoder layout *)

(** [fillBuffer] writes exactly what the two-pass encoder of the
    specification writes for the sample it serialises. *)
Lemma fillBuffer_encode (fProximity : bool) (r : Readings) :
  fillBuffer fProximity r = encode (sample_of fProximity r).
Proof. destruct fProximity; reflexivity. Qed.

Lemma flags_of_sample_of (fProximity : bool) (r : Readings) :
  flags_of (sample_of fProximity r) = if fProximity then 0x7b else 0x03.
Proof. destruct fProximity; reflexivity. Qed.

(** ** Arithmetic of the 16-bit fields *)

Lemma be16_put2 (v : Z) :
  be16 (uint8 (Z.shiftr v 8)) (uint8 v) = uint16 v.
Proof.
  unfold be16, uint8, uint16.
  rewrite Z.shiftr_div_pow2, Z.shiftl_mul_pow2 by lia.
  change (2 ^ 8) with 256.
  pose proof (Z.div_mod v 256 ltac:(lia)) as Hv.
  pose proof (Z.mod_pos_bound v 256 ltac:(lia)) as Hlo.
  pose proof (Z.mod_pos_bound (v / 256) 256 ltac:(lia)) as Hhi.
  pose proof (Z.div_mod (v / 256) 256 ltac:(lia)) as Hq.
  apply Z.mod_unique_pos with (q := v / 256 / 256); lia.
Qed.

Lemma land_0x8000 (raw : Z) :
  0 <= raw < 65536 ->
  JS.truthy (Z.land raw 0x8000) = (32768 <=? raw).
Proof.
  intros Hr. unfold JS.truthy.
  assert (Hbit : Z.land raw 0x8000 = if Z.testbit raw 15 then 0x8000 else 0).
  { apply Z.bits_inj'. intros m Hm.
    rewrite Z.land_spec. change 0x8000 with (2 ^ 15).
    rewrite Z.pow2_bits_eqb by lia.
    destruct (Z.eqb_spec 15 m) as [<- | Hne].
    - rewrite andb_true_r. destruct (Z.testbit raw 15) eqn:E.
      + rewrite Z.pow2_bits_eqb by lia. reflexivity.
      + rewrite Z.bits_0. reflexivity.
    - rewrite andb_false_r. destruct (Z.testbit raw 15).
      + rewrite Z.pow2_bits_eqb by lia. symmetry. apply Z.eqb_neq. exact Hne.
      + rewrite Z.bits_0. reflexivity. }
  rewrite Hbit.
  assert (Ht : Z.testbit raw 15 = (32768 <=? raw)).
  { rewrite Z.testbit_eqb by lia. change (2 ^ 15) with 32768.
    destruct (Z.leb_spec 32768 raw) as [Hge | Hlt].
    - assert (raw / 32768 = 1) as ->
        by (symmetry; apply Z.div_unique with (r := raw - 32768); lia).
      reflexivity.
    - rewrite Z.div_small by lia. reflexivity. }
  rewrite Ht. destruct (32768 <=? raw); reflexivity.
Qed.

Lemma sign16_uint16 (n : Z) :
  -32768 <= n <= 32767 -> sign16 (uint16 n) = n.
Proof.
  intros Hn. unfold sign16, uint16.
  pose proof (Z.mod_pos_bound n 65536 ltac:(lia)) as Hb.
  rewrite land_0x8000 by exact Hb.
  destruct (Z.leb_spec 32768 (n mod 65536)) as [Hge | Hlt].
  - assert (n < 0).
    { destruct (Z.lt_ge_cases n 0); [assumption|].
      rewrite Z.mod_small in Hge by lia. lia. }
    assert (n mod 65536 = n + 65536) as ->
      by (symmetry; apply Z.mod_unique_pos with (q := -1); lia).
    lia.
  - assert (0 <= n).
    { destruct (Z.lt_ge_cases n 0); [|assumption].
      assert (n mod 65536 = n + 65536)
        by (symmetry; apply Z.mod_unique_pos with (q := -1); lia).
      lia. }
    apply Z.mod_small. lia.
Qed.

Lemma uint16_small (v : Z) : 0 <= v <= 65535 -> uint16 v = v.
Proof. intros. apply Z.mod_small. lia. Qed.

Lemma uint8_small (v : Z) : 0 <= v <= 255 -> uint8 v = v.
Proof. intros. apply Z.mod_small. lia. Qed.

Lemma sat_i16_range (v : Z) : -32768 <= TxBuffer.sat_i16 v <= 32767.
Proof. unfold TxBuffer.sat_i16. lia. Qed.

Lemma sat_i16_id (v : Z) : -32768 <= v <= 32767 -> TxBuffer.sat_i16 v = v.
Proof. unfold TxBuffer.sat_i16. lia. Qed.

Lemma sat_u16_id (v : Z) : 0 <= v <= 65535 -> TxBuffer.sat_u16 v = v.
Proof. unfold TxBuffer.sat_u16. lia. Qed.

Lemma int16_range (v : Z) : -32768 <= int16 v <= 32767.
Proof.
  unfold int16. pose proof (Z.mod_pos_bound (v + 32768) 65536 ltac:(lia)). lia.
Qed.

Lemma uint16_range (v : Z) : 0 <= uint16 v <= 65535.
Proof. unfold uint16. pose proof (Z.mod_pos_bound v 65536 ltac:(lia)). lia. Qed.

(** A representable voltage is carried without loss: scaling back the
    count that [putV] stores gives the voltage. *)
Lemma volts_roundtrip (V : Q) :
  volts_representable V = true ->
  let n := TxBuffer.sat_i16 (TxBuffer.volts_to_counts V) in
  -32768 <= n <= 32767 /\ (inject_Z n / 4096 == V)%Q.
Proof.
  unfold volts_representable. intros H.
  apply andb_true_iff in H as [H Hhi]. apply andb_true_iff in H as [Hq Hlo].
  apply Qeq_bool_iff in Hq. apply Z.leb_le in Hlo, Hhi.
  set (m := Qfloor (V * 4096)) in *.
  assert (Hc : TxBuffer.volts_to_counts V = m).
  { unfold TxBuffer.volts_to_counts.
    assert (Heq : (V * 4096 + (1 # 2) == inject_Z m + (1 # 2))%Q) by (rewrite Hq; reflexivity).
    rewrite (Qfloor_comp _ _ Heq).
    symmetry. apply Z.le_antisymm.
    - rewrite <- (Qfloor_Z m) at 1. apply Qfloor_resp_le.
      unfold Qle, inject_Z, Qplus; simpl. lia.
    - assert (Hlt : (inject_Z m + (1 # 2) < inject_Z (m + 1))%Q).
      { unfold Qlt, inject_Z, Qplus; simpl. lia. }
      pose proof (Qfloor_le (inject_Z m + (1 # 2))) as Hfl.
      assert (Hzz : (inject_Z (Qfloor (inject_Z m + (1 # 2))) < inject_Z (m + 1))%Q)
        by (eapply Qle_lt_trans; eassumption).
      rewrite <- Zlt_Qlt in Hzz. lia. }
  cbv zeta. rewrite Hc, sat_i16_id by lia. split; [lia|].
  rewrite Hq. field.
Qed.

(** ** The decoder, statement by statement *)

Lemma field_if_true {A : Type} flags mask (read : Parse -> A * Parse) set d P :
  JS.truthy (JS.and flags mask) = true ->
  field_if flags mask read set (d, P) = (set d (fst (read P)), snd (read P)).
Proof. intros H. unfold field_if. rewrite H. destruct (read P); reflexivity. Qed.

Lemma field_if_false {A : Type} flags mask (read : Parse -> A * Parse) set d P :
  JS.truthy (JS.and flags mask) = false ->
  field_if flags mask read set (d, P) = (d, P).
Proof. intros H. unfold field_if. rewrite H. reflexivity. Qed.

Lemma next_byte_at bytes i b :
  nth_error bytes i = Some b ->
  next_byte (mkParse bytes i) = (Num b, mkParse bytes (i + 1)).
Proof. intros H. unfold next_byte, JS.index; simpl. rewrite H. reflexivity. Qed.

Lemma DecodeU16_at bytes i hi lo :
  nth_error bytes i = Some hi -> nth_error bytes (i + 1) = Some lo ->
  DecodeU16 (mkParse bytes i) = (Num (be16 hi lo), mkParse bytes (i + 2)).
Proof.
  intros H1 H2. unfold DecodeU16, JS.index; simpl. rewrite H1, H2. reflexivity.
Qed.

Lemma DecodeI16_at bytes i hi lo :
  nth_error bytes i = Some hi -> nth_error bytes (i + 1) = Some lo ->
  DecodeI16 (mkParse bytes i) = (Num (sign16 (be16 hi lo)), mkParse bytes (i + 2)).
Proof.
  intros H1 H2. unfold DecodeI16. rewrite (DecodeU16_at _ _ _ _ H1 H2).
  unfold sign16, JS.and, JS.to_int32.
  destruct (JS.truthy (Z.land (be16 hi lo) 32768)); reflexivity.
Qed.

Lemma DecodeV_at bytes i hi lo :
  nth_error bytes i = Some hi -> nth_error bytes (i + 1) = Some lo ->
  DecodeV (mkParse bytes i)
  = (Num (inject_Z (sign16 (be16 hi lo)) / 4096)%Q, mkParse bytes (i + 2)).
Proof.
  intros H1 H2. unfold DecodeV. rewrite (DecodeI16_at _ _ _ _ H1 H2). reflexivity.
Qed.

(** A 16-bit read with fewer than two bytes left yields [NaN]. *)
Lemma DecodeU16_past_end bytes i :
  nth_error bytes (i + 1) = None ->
  fst (DecodeU16 (mkParse bytes i)) = NaN.
Proof.
  intros H. unfold DecodeU16, JS.index; simpl. rewrite H.
  destruct (nth_error bytes i); reflexivity.
Qed.

(** One [if (flags & mask)] statement of the decoder on a payload whose
    bytes are all there. *)
Ltac decode_field :=
  first
    [ rewrite field_if_false by reflexivity
    | rewrite field_if_true by reflexivity;
      first [ erewrite DecodeV_at by reflexivity
            | erewrite DecodeU16_at by reflexivity
            | erewrite DecodeI16_at by reflexivity
            | erewrite next_byte_at by reflexivity ];
      cbn [fst snd] ].

Ltac run_decoder :=
  unfold Decoder, Decoder_fields;
  cbn [negb Z.eqb Pos.eqb JS.index nth_error JS.strict_eq];
  erewrite next_byte_at by reflexivity;
  cbv zeta; cbn [fst snd];
  do 7 decode_field.

Ltac lay_out_payload :=
  cbv [encode flat_map all_tags field_bytes opt_bytes
       s_vBat s_vBus s_boot s_sarCh0 s_sarCh1 s_sarCh2 s_amplitude
       TxBuffer.putV TxBuffer.put2uf TxBuffer.put2sf TxBuffer.put2 TxBuffer.put
       TxBuffer.begin app kMessageFormat];
  match goal with
  | |- context [flags_of ?s] =>
      let f := eval vm_compute in (flags_of s) in
      change (flags_of s) with f
  end.

Lemma in_range_Some lo hi v : in_range lo hi (Some v) = true -> lo <= v <= hi.
Proof. unfold in_range. intros H. apply andb_true_iff in H as [H1 H2]. lia. Qed.

Ltac field_values :=
  repeat match goal with
    | H : in_range _ _ (Some _) = true |- _ => apply in_range_Some in H
    | H : in_range _ _ None = true |- _ => clear H
    | H : opt_volts_ok None = true |- _ => clear H
    | H : opt_volts_ok (Some _) = true |- _ =>
        apply volts_roundtrip in H; cbv zeta in H; destruct H
    end;
  rewrite ?be16_put2;
  rewrite ?sat_u16_id by lia;
  rewrite ?sat_i16_id by lia;
  rewrite ?sign16_uint16 by (first [lia | apply sat_i16_range]);
  rewrite ?uint16_small by lia;
  rewrite ?uint8_small by lia.

(** The decoder inverts the wire format on every valid sample, whatever
    subset of the seven fields it carries. *)
Lemma Decoder_encode (s : Sample) :
  valid_sample s = true ->
  exists d, Decoder (encode s) 1 = Some d /\ same_sample d s.
Proof.
  unfold valid_sample. intros H.
  repeat (apply andb_true_iff in H; destruct H as [H ?]).
  destruct s as [[q1|] [q2|] [z3|] [z4|] [z5|] [z6|] [z7|]];
    cbn [s_vBat s_vBus s_boot s_sarCh0 s_sarCh1 s_sarCh2 s_amplitude] in *;
    (eexists; split; [lay_out_payload; run_decoder; reflexivity|]);
    field_values;
    unfold same_sample, field_is; cbn;
    repeat split; try assumption; try reflexivity;
    apply sat_i16_id; lia.
Qed.

Lemma sample_of_valid (fProximity : bool) (r : Readings) :
  volts_representable (ReadVbat r) = true ->
  volts_representable (ReadVbus r) = true ->
  valid_sample (sample_of fProximity r) = true.
Proof.
  intros Hbat Hbus. unfold valid_sample, sample_of; cbn.
  rewrite Hbat, Hbus.
  pose proof (uint16_range (getSarCountCh0 r)).
  pose proof (uint16_range (getSarCountCh1 r)).
  pose proof (uint16_range (getSarCountCh2 r)).
  pose proof (int16_range (getAmplitude r)).
  destruct fProximity; cbn; [|reflexivity].
  repeat (apply andb_true_iff; split); apply Z.leb_le; lia.
Qed.

Example scenario_payload :
  fillBuffer true scenario_readings
  = [0x2f; 0x7b; 0x34; 0xcd; 0x50; 0x00; 0x00; 0x78; 0x00; 0x50; 0x00; 0x28; 0xff; 0xf1].
Proof. reflexivity. Qed.

Example scenario_decoded :
  Decoder (fillBuffer true scenario_readings) 1
  = Some (mkDecoded (Some (Num (13517 # 4096))) (Some (Num (20480 # 4096))) None
            (Some (Num 120)) (Some (Num 80)) (Some (Num 40)) (Some (Num (-15)))).
Proof. reflexivity. Qed.

(** A voltage between two grid points does not come back: 3.3 V is sent as
    the count 13517 and read as 13517/4096 V. *)
Example off_grid_voltage_is_rounded :
  vBat (fst (Decoder_fields (fillBuffer false (mkReadings (33 # 10) 5 0 0 0 0))))
  = Some (Num (13517 # 4096)).
Proof. reflexivity. Qed.

(** ** Uplink codec *)

(** C1. Round trip: for every sample the encoder can serialise whose
    voltages are values the fixed-point field can carry, the console decoder
    applied to the payload built by [fillBuffer] returns an object that
    equals the sample field for field: every field written is recovered with
    its value and every field left out is absent. *)
Theorem uplink_round_trip (fProximity : bool) (r : Readings) :
  volts_representable (ReadVbat r) = true ->
  volts_representable (ReadVbus r) = true ->
  exists d,
    Decoder (TxBuffer.getbase (fillBuffer fProximity r)) 1 = Some d /\
    same_sample d (sample_of fProximity r).
Proof.
  intros Hbat Hbus. unfold TxBuffer.getbase.
  rewrite fillBuffer_encode.
  apply Decoder_encode, sample_of_valid; assumption.
Qed.

Lemma uplink_round_trip_witness :
  volts_representable (ReadVbat scenario_readings) = true /\
  volts_representable (ReadVbus scenario_readings) = true /\
  exists d,
    Decoder (TxBuffer.getbase (fillBuffer true scenario_readings)) 1 = Some d /\
    same_sample d (sample_of true scenario_readings).
Proof.
  split; [reflexivity|]. split; [reflexivity|].
  apply (uplink_round_trip true scenario_readings); reflexivity.
Defined.

(** C2. Flag/field correspondence: in every payload built by [fillBuffer],
    the payload is the format byte, the flags byte and then, in ascending
    tag order, the bytes of the fields; a field occupies its fixed width
    when its flag bit is set and no byte at all when it is clear; the flags
    byte is the union of the tags of the fields present, bit 7 being zero. *)
Theorem flags_match_fields (fProximity : bool) (r : Readings) :
  let s := sample_of fProximity r in
  let payload := fillBuffer fProximity r in
  let flags := nth 1 payload 0 in
  payload = kMessageFormat :: flags :: flat_map (field_bytes s) all_tags /\
  map tag_bit all_tags = [0; 1; 2; 3; 4; 5; 6] /\
  (forall t, Z.testbit flags (tag_bit t) = has_field s t) /\
  (forall t, length (field_bytes s t) = if has_field s t then tag_width t else 0%nat) /\
  flags = fold_right Z.lor 0 (map tag_mask (filter (has_field s) all_tags)) /\
  Z.testbit flags 7 = false.
Proof.
  cbv zeta. rewrite fillBuffer_encode. unfold encode.
  cbn [nth]. rewrite flags_of_sample_of.
  split; [reflexivity|]. split; [reflexivity|].
  split; [intros t; destruct fProximity, t; reflexivity|].
  split; [intros t; destruct fProximity, t; reflexivity|].
  split; destruct fProximity; reflexivity.
Qed.

(** C10. Which fields an uplink carries: battery voltage (bit 0) and bus
    voltage (bit 1) always, the boot counter (bit 2) never, and the three SAR
    counts and the amplitude (bits 3 to 6) exactly when the proximity sensor
    answered at boot, all four together. *)
Theorem uplink_field_set (iqs_began : bool) (r : Readings) :
  let fProximity := setup_iqs iqs_began in
  let payload := fillBuffer fProximity r in
  let flags := nth 1 payload 0 in
  Z.testbit flags 0 = true /\
  Z.testbit flags 1 = true /\
  Z.testbit flags 2 = false /\
  Z.testbit flags 3 = iqs_began /\
  Z.testbit flags 4 = iqs_began /\
  Z.testbit flags 5 = iqs_began /\
  Z.testbit flags 6 = iqs_began /\
  payload =
    [kMessageFormat; flags]
    ++ TxBuffer.putV [] (ReadVbat r)
    ++ TxBuffer.putV [] (ReadVbus r)
    ++ (if iqs_began
        then TxBuffer.put2uf [] (uint16 (getSarCountCh0 r))
             ++ TxBuffer.put2uf [] (uint16 (getSarCountCh1 r))
             ++ TxBuffer.put2uf [] (uint16 (getSarCountCh2 r))
             ++ TxBuffer.put2sf [] (int16 (getAmplitude r))
        else []) /\
  length payload = (if iqs_began then 14 else 6)%nat.
Proof.
  destruct iqs_began; cbv zeta; repeat split; reflexivity.
Qed.

(** The decoder in closed form: each flagged field is read at its offset,
    whether or not the bytes are there, and the cursor ends after the last
    flagged field. *)
Lemma Decoder_fields_closed_form (bytes : list Z) :
  let flags := JS.index bytes 1 in
  Decoder_fields bytes =
  (mkDecoded (read_if flags BatteryVoltage DecodeV bytes)
             (read_if flags BusVoltage DecodeV bytes)
             (read_if flags BootCount next_byte bytes)
             (read_if flags SarCh0 DecodeU16 bytes)
             (read_if flags SarCh1 DecodeU16 bytes)
             (read_if flags SarCh2 DecodeU16 bytes)
             (read_if flags HallAmplitude DecodeI16 bytes),
   mkParse bytes (consumed flags)).
Proof.
  cbv zeta. unfold read_if, consumed, offset.
  cbn [list_sum fold_right map filter all_tags tag_bit Z.ltb Z.compare
       Pos.compare Pos.compare_cont].
  unfold Decoder_fields, next_byte, width_if_flagged, flagged, field_if.
  cbn [Parse_bytes Parse_i].
  change (tag_mask BatteryVoltage) with 0x1.
  change (tag_mask BusVoltage) with 0x2.
  change (tag_mask BootCount) with 0x4.
  change (tag_mask SarCh0) with 0x8.
  change (tag_mask SarCh1) with 0x10.
  change (tag_mask SarCh2) with 0x20.
  change (tag_mask HallAmplitude) with 0x40.
  generalize (JS.index bytes 1); intros flags.
  destruct (JS.truthy (JS.and flags 0x1)), (JS.truthy (JS.and flags 0x2)),
    (JS.truthy (JS.and flags 0x4)), (JS.truthy (JS.and flags 0x8)),
    (JS.truthy (JS.and flags 0x10)), (JS.truthy (JS.and flags 0x20)),
    (JS.truthy (JS.and flags 0x40)); reflexivity.
Qed.

Lemma DecodeI16_past_end bytes i :
  nth_error bytes (i + 1) = None ->
  fst (DecodeI16 (mkParse bytes i)) = NaN.
Proof.
  intros H. pose proof (DecodeU16_past_end bytes i H) as E.
  unfold DecodeI16. destruct (DecodeU16 (mkParse bytes i)) as [v P].
  cbn [fst] in E. subst v. reflexivity.
Qed.

Lemma DecodeV_past_end bytes i :
  nth_error bytes (i + 1) = None ->
  fst (DecodeV (mkParse bytes i)) = NaN.
Proof.
  intros H. pose proof (DecodeI16_past_end bytes i H) as E.
  unfold DecodeV. destruct (DecodeI16 (mkParse bytes i)) as [v P].
  cbn [fst] in E. subst v. reflexivity.
Qed.

Lemma next_byte_past_end bytes i :
  nth_error bytes i = None ->
  fst (next_byte (mkParse bytes i)) = Undefined.
Proof. intros H. unfold next_byte, JS.index. cbn. rewrite H. reflexivity. Qed.

Lemma two_bytes_there (bytes : list Z) (i : nat) :
  (i + 2 <= length bytes)%nat ->
  exists hi lo, nth_error bytes i = Some hi /\ nth_error bytes (i + 1) = Some lo.
Proof.
  intros H.
  destruct (nth_error bytes i) as [hi|] eqn:E1;
    [|apply nth_error_None in E1; lia].
  destruct (nth_error bytes (i + 1)) as [lo|] eqn:E2;
    [|apply nth_error_None in E2; lia].
  exists hi, lo. split; reflexivity.
Qed.

(** C3 (as amended). The decoder returns [null] exactly when the port is not
    1 or byte 0 is not the format 0x2f, and never because the payload is
    short.  Otherwise it returns an object: a property is assigned exactly
    for the flagged fields, each read, in ascending tag order, at its
    offset; the cursor advances by exactly the fixed widths of the flagged
    fields; a flagged field whose bytes are all there is a number; and a
    flagged field whose bytes are not all there is [NaN] (16-bit fields) or
    [undefined] (boot counter). *)
Theorem Decoder_rejects_only_port_and_format (bytes : list Z) (port : Z) :
  let flags := JS.index bytes 1 in
  let d := fst (Decoder_fields bytes) in
  Decoder bytes port =
    (if (port =? 1) && JS.strict_eq (JS.index bytes 0) 0x2f
     then Some (mkDecoded (read_if flags BatteryVoltage DecodeV bytes)
                          (read_if flags BusVoltage DecodeV bytes)
                          (read_if flags BootCount next_byte bytes)
                          (read_if flags SarCh0 DecodeU16 bytes)
                          (read_if flags SarCh1 DecodeU16 bytes)
                          (read_if flags SarCh2 DecodeU16 bytes)
                          (read_if flags HallAmplitude DecodeI16 bytes))
     else None) /\
  Parse_i (snd (Decoder_fields bytes)) = consumed flags /\
  Decoder bytes port = (if (port =? 1) && JS.strict_eq (JS.index bytes 0) 0x2f
                        then Some d else None) /\
  (forall t, flagged flags t = false -> field_absent d t) /\
  (forall t, flagged flags t = true ->
     (offset flags t + tag_width t <= length bytes)%nat -> field_number d t) /\
  (forall t, flagged flags t = true ->
     (length bytes < offset flags t + tag_width t)%nat -> field_past_end d t).
Proof.
  cbv zeta. unfold Decoder. rewrite Decoder_fields_closed_form. cbn [fst snd Parse_i].
  split; [destruct (port =? 1); [|reflexivity];
          destruct (JS.strict_eq (JS.index bytes 0) 47); reflexivity|].
  split; [reflexivity|].
  split; [destruct (port =? 1); [|reflexivity];
          destruct (JS.strict_eq (JS.index bytes 0) 47); reflexivity|].
  split; [|split].
  - intros t Hf. destruct t; cbn; unfold read_if; rewrite Hf; reflexivity.
  - intros t Hf Hlen.
    destruct t; cbn [field_number vBat vBus boot sarCh0 sarCh1 sarCh2 amplitude];
      unfold read_if; rewrite Hf; cbn [tag_width] in Hlen.
    + destruct (two_bytes_there bytes _ Hlen) as (hi & lo & H1 & H2).
      rewrite (DecodeV_at _ _ _ _ H1 H2). eexists. reflexivity.
    + destruct (two_bytes_there bytes _ Hlen) as (hi & lo & H1 & H2).
      rewrite (DecodeV_at _ _ _ _ H1 H2). eexists. reflexivity.
    + destruct (nth_error bytes (offset (JS.index bytes 1) BootCount)) as [b|] eqn:E;
        [|apply nth_error_None in E; lia].
      rewrite (next_byte_at _ _ _ E). eexists. reflexivity.
    + destruct (two_bytes_there bytes _ Hlen) as (hi & lo & H1 & H2).
      rewrite (DecodeU16_at _ _ _ _ H1 H2). eexists. reflexivity.
    + destruct (two_bytes_there bytes _ Hlen) as (hi & lo & H1 & H2).
      rewrite (DecodeU16_at _ _ _ _ H1 H2). eexists. reflexivity.
    + destruct (two_bytes_there bytes _ Hlen) as (hi & lo & H1 & H2).
      rewrite (DecodeU16_at _ _ _ _ H1 H2). eexists. reflexivity.
    + destruct (two_bytes_there bytes _ Hlen) as (hi & lo & H1 & H2).
      rewrite (DecodeI16_at _ _ _ _ H1 H2). eexists. reflexivity.
  - intros t Hf Hlen.
    destruct t; cbn [field_past_end vBat vBus boot sarCh0 sarCh1 sarCh2 amplitude];
      unfold read_if; rewrite Hf; cbn [tag_width] in Hlen; f_equal;
      first [ apply DecodeV_past_end | apply DecodeU16_past_end
            | apply DecodeI16_past_end | apply next_byte_past_end ];
      apply nth_error_None; lia.
Qed.

(** C3, as stated, fails: a payload whose flags byte announces a battery
    voltage that is not there is decoded, with [NaN] for the voltage. *)
Lemma truncated_payload_is_decoded :
  truncated [0x2f; 0x01] = true /\
  Decoder [0x2f; 0x01] 1 = Some (mkDecoded (Some NaN) None None None None None None).
Proof. split; reflexivity. Qed.

(** ** Sleep policy *)

(** C4. The sleep decision is the priority table applied to the four
    inputs: deep-sleep test gives Deep; else an attached host terminal gives
    Light; else "disable deep sleep" gives Light; else "unattended" gives
    Deep; else Light.  In particular the deep-sleep test wins over
    everything, and an attached terminal wins over "unattended". *)
Theorem sleep_policy_table (pf : Platform) (flags : Z) (dtr : bool) :
  let deepSleepTest := flag_set flags (fDeepSleepTest pf) in
  let debuggerAttached := USBCON pf && dtr in
  let disableDeepSleep := flag_set flags (fDisableDeepSleep pf) in
  let unattended := flag_set flags (fUnattended pf) in
  mode_of (checkDeepSleep pf flags dtr)
    = decide_table deepSleepTest debuggerAttached disableDeepSleep unattended /\
  (forall b c d, decide_table true b c d = Deep) /\
  (forall c, decide_table false true c true = Light) /\
  decide_table false false true true = Light /\
  decide_table false false false true = Deep /\
  decide_table false false false false = Light.
Proof.
  cbv zeta. unfold checkDeepSleep, decide_table.
  repeat split.
  destruct (flag_set flags (fDeepSleepTest pf)), (USBCON pf && dtr),
    (flag_set flags (fDisableDeepSleep pf)), (flag_set flags (fUnattended pf));
    reflexivity.
Qed.

(** Every one of the 16 combinations of the four inputs is produced by some
    operating-flags word and terminal state, and decided by the table. *)
Lemma sleep_policy_all_combinations (a b c d : bool) :
  exists flags dtr,
    flag_set flags (fDeepSleepTest sample_platform) = a /\
    USBCON sample_platform && dtr = b /\
    flag_set flags (fDisableDeepSleep sample_platform) = c /\
    flag_set flags (fUnattended sample_platform) = d /\
    mode_of (checkDeepSleep sample_platform flags dtr) = decide_table a b c d.
Proof.
  exists ((if a then Z.shiftl 1 19 else 0) + (if c then Z.shiftl 1 17 else 0)
          + (if d then 1 else 0)), b.
  destruct a, b, c, d; repeat split; reflexivity.
Qed.

(** ** Downlink configuration *)

Lemma lor_shiftl_8 (hi lo : Z) :
  0 <= lo < 256 -> Z.lor (Z.shiftl hi 8) lo = 256 * hi + lo.
Proof.
  intros Hlo.
  assert (Hand : Z.land (Z.shiftl hi 8) lo = 0).
  { apply Z.bits_inj'. intros m Hm. rewrite Z.land_spec, Z.bits_0.
    destruct (Z.lt_ge_cases m 8).
    - rewrite Z.shiftl_spec_low by lia. reflexivity.
    - destruct (Z.eq_dec lo 0) as [-> | Hnz].
      + rewrite Z.bits_0. apply andb_false_r.
      + rewrite (Z.bits_above_log2 lo m); [apply andb_false_r | lia |].
        apply Z.log2_lt_pow2; [lia|].
        apply Z.lt_le_trans with (2 ^ 8); [simpl; lia|].
        apply Z.pow_le_mono_r; lia. }
  pose proof (Z.add_lor_land (Z.shiftl hi 8) lo) as H.
  rewrite Hand in H.
  pose proof (Z.shiftl_mul_pow2 hi 8 ltac:(lia)) as Hs.
  change (2 ^ 8) with 256 in Hs. lia.
Qed.

Lemma msg_at_range (pMessage : list Z) (k : nat) : 0 <= msg_at pMessage k < 256.
Proof. unfold msg_at, uint8. apply Z.mod_pos_bound. lia. Qed.

(** [receiveMessage] on the application port with a message of 2 or 3
    bytes, in closed form. *)
Lemma receiveMessage_config (s : State) (pMessage : list Z) :
  (length pMessage = 2 \/ length pMessage = 3)%nat ->
  receiveMessage s 1 pMessage =
    if (interval_of pMessage <? CATCFG_T_MIN) || (interval_of pMessage >? CATCFG_T_MAX)
    then (RxOutOfRange, s)
    else (RxAccepted,
          setTxCycleTime s (interval_of pMessage)
            (if (length pMessage =? 3)%nat then msg_at pMessage 2
             else CATCFG_INTERVAL_COUNT)).
Proof.
  intros Hlen. unfold receiveMessage, interval_of.
  rewrite lor_shiftl_8 by apply msg_at_range.
  destruct Hlen as [-> | ->]; reflexivity.
Qed.

(** C5. On the application port, for a message of 2 or 3 bytes, the first
    two bytes are a big-endian 16-bit interval; the message is rejected as
    out of range exactly when the interval is below [CATCFG_T_MIN] or above
    [CATCFG_T_MAX] (both bounds are accepted), a rejected message leaves
    the state untouched, and an accepted one stores the interval. *)
Theorem downlink_interval_bounds (s : State) (port : Z) (pMessage : list Z) :
  port = 1 ->
  (length pMessage = 2 \/ length pMessage = 3)%nat ->
  let interval := 256 * msg_at pMessage 0 + msg_at pMessage 1 in
  let result := receiveMessage s port pMessage in
  (fst result = RxOutOfRange <-> interval < CATCFG_T_MIN \/ interval > CATCFG_T_MAX) /\
  (fst result = RxOutOfRange -> snd result = s) /\
  (fst result = RxAccepted <-> CATCFG_T_MIN <= interval <= CATCFG_T_MAX) /\
  (fst result = RxAccepted -> gTxCycle (snd result) = interval) /\
  CATCFG_T_MIN = 10 /\ CATCFG_T_MAX = 3600.
Proof.
  intros -> Hlen. cbv zeta. rewrite (receiveMessage_config s pMessage Hlen).
  fold (interval_of pMessage).
  destruct (Z.ltb_spec (interval_of pMessage) CATCFG_T_MIN) as [Hlo | Hlo];
    destruct (Z.gtb_spec (interval_of pMessage) CATCFG_T_MAX) as [Hhi | Hhi];
    cbn [orb fst snd]; unfold interval_of in *;
    change CATCFG_T_MIN with 10 in *; change CATCFG_T_MAX with 3600 in *;
    (repeat split; try reflexivity; try discriminate; try lia;
     intros; try discriminate; try lia; try reflexivity).
Qed.

Lemma downlink_interval_bounds_witness :
  1 = 1 /\
  (length [0; 10] = 2 \/ length [0; 10] = 3)%nat /\
  let interval := 256 * msg_at [0; 10] 0 + msg_at [0; 10] 1 in
  let result := receiveMessage sample_state 1 [0; 10] in
  (fst result = RxOutOfRange <-> interval < CATCFG_T_MIN \/ interval > CATCFG_T_MAX) /\
  (fst result = RxOutOfRange -> snd result = sample_state) /\
  (fst result = RxAccepted <-> CATCFG_T_MIN <= interval <= CATCFG_T_MAX) /\
  (fst result = RxAccepted -> gTxCycle (snd result) = interval) /\
  CATCFG_T_MIN = 10 /\ CATCFG_T_MAX = 3600.
Proof.
  split; [reflexivity|]. split; [left; reflexivity|].
  exact (downlink_interval_bounds sample_state 1 [0; 10] eq_refl (or_introl eq_refl)).
Defined.

(** The bounds themselves are accepted; one second outside is not. *)
Example downlink_at_the_bounds :
  receiveMessage sample_state 1 [0x00; 0x0a]
    = (RxAccepted, setTxCycleTime sample_state CATCFG_T_MIN CATCFG_INTERVAL_COUNT) /\
  receiveMessage sample_state 1 [0x0e; 0x10; 7]
    = (RxAccepted, setTxCycleTime sample_state CATCFG_T_MAX 7) /\
  receiveMessage sample_state 1 [0x00; 0x09] = (RxOutOfRange, sample_state) /\
  receiveMessage sample_state 1 [0x0e; 0x11] = (RxOutOfRange, sample_state).
Proof. repeat split. Qed.

(** The scenarios of the specification: 30 seconds without a count byte,
    and 5 seconds. *)
Example downlink_scenarios :
  receiveMessage sample_state 1 [0x00; 0x1e]
    = (RxAccepted, setTxCycleTime sample_state 30 CATCFG_INTERVAL_COUNT) /\
  receiveMessage sample_state 1 [0x00; 0x05] = (RxOutOfRange, sample_state).
Proof. repeat split. Qed.

Lemma cycles_zero_count (n : nat) (s : State) :
  gTxCycleCount s = 0 -> cycles n s = s.
Proof.
  intros H. induction n as [|n IH]; [reflexivity|].
  cbn [cycles]. unfold updateSleepCounters. rewrite H. cbn. exact IH.
Qed.

(** C6. A downlink on a non-zero port is accepted only on the application
    port with 2 or 3 bytes; any other port or length is rejected as invalid
    and nothing is updated.  On the application port a message of 2 or 3
    bytes whose interval is within the bounds is accepted: with 3 bytes the
    third byte becomes the repeat count, with 2 bytes the compiled default
    [CATCFG_INTERVAL_COUNT] is used; a count of 0 sticks: no number of
    cycles changes the interval or the count afterwards. *)
Theorem downlink_length_and_repeat (s : State) (port : Z) (pMessage : list Z) :
  port <> 0 ->
  let result := receiveMessage s port pMessage in
  let n := length pMessage in
  (~ (port = 1 /\ (n = 2 \/ n = 3)%nat) -> result = (RxInvalid, s)) /\
  (fst result = RxAccepted ->
     port = 1 /\ (n = 2 \/ n = 3)%nat /\
     gTxCycleCount (snd result)
       = (if (n =? 3)%nat then msg_at pMessage 2 else CATCFG_INTERVAL_COUNT) /\
     (gTxCycleCount (snd result) = 0 -> forall k, cycles k (snd result) = snd result)) /\
  (fst result <> RxAccepted -> snd result = s) /\
  CATCFG_INTERVAL_COUNT = 30 /\
  (port = 1 -> (n = 2 \/ n = 3)%nat ->
   CATCFG_T_MIN <= 256 * msg_at pMessage 0 + msg_at pMessage 1 <= CATCFG_T_MAX ->
   result = (RxAccepted,
             setTxCycleTime s (256 * msg_at pMessage 0 + msg_at pMessage 1)
               (if (n =? 3)%nat then msg_at pMessage 2 else CATCFG_INTERVAL_COUNT))).
Proof.
  intros Hport. cbv zeta.
  assert (Hacc : port = 1 -> (length pMessage = 2 \/ length pMessage = 3)%nat ->
            CATCFG_T_MIN <= 256 * msg_at pMessage 0 + msg_at pMessage 1 <= CATCFG_T_MAX ->
            receiveMessage s port pMessage
            = (RxAccepted,
               setTxCycleTime s (256 * msg_at pMessage 0 + msg_at pMessage 1)
                 (if (length pMessage =? 3)%nat then msg_at pMessage 2
                  else CATCFG_INTERVAL_COUNT))).
  { intros -> Hlen Hrange. rewrite (receiveMessage_config s pMessage Hlen).
    unfold interval_of.
    destruct (Z.ltb_spec (256 * msg_at pMessage 0 + msg_at pMessage 1) CATCFG_T_MIN);
      [lia|].
    destruct (Z.gtb_spec (256 * msg_at pMessage 0 + msg_at pMessage 1) CATCFG_T_MAX);
      [lia|].
    reflexivity. }
  assert (Hcases : (port = 1 /\ (length pMessage = 2 \/ length pMessage = 3)%nat)
                   \/ receiveMessage s port pMessage = (RxInvalid, s)).
  { unfold receiveMessage.
    destruct (Z.eqb_spec port 0) as [|_]; [contradiction|].
    destruct (Z.eqb_spec port 1) as [->|]; [|right; reflexivity].
    destruct (Z.leb_spec 2 (Z.of_nat (length pMessage)));
      destruct (Z.leb_spec (Z.of_nat (length pMessage)) 3);
      try (right; reflexivity).
    left. split; [reflexivity | lia]. }
  destruct Hcases as [[-> Hlen] | Hinv].
  - revert Hacc. rewrite (receiveMessage_config s pMessage Hlen). intros Hacc.
    split; [intros Hn; exfalso; apply Hn; split; [reflexivity | exact Hlen]|].
    revert Hacc.
    destruct ((interval_of pMessage <? CATCFG_T_MIN)
              || (interval_of pMessage >? CATCFG_T_MAX)); cbn [fst snd]; intros Hacc.
    + split; [intros H; discriminate H|].
      split; [intros _; reflexivity|]. split; [reflexivity|]. exact Hacc.
    + split.
      { intros _. split; [reflexivity|]. split; [exact Hlen|].
        split; [reflexivity|].
        intros Hz k. apply cycles_zero_count. exact Hz. }
      split; [intros Hn; exfalso; apply Hn; reflexivity|].
      split; [reflexivity | exact Hacc].
  - rewrite Hinv in *. cbn [fst snd].
    split; [intros _; reflexivity|].
    split; [intros H; discriminate H|].
    split; [intros _; reflexivity|]. split; [reflexivity|]. exact Hacc.
Qed.

Lemma downlink_length_and_repeat_witness :
  1 <> 0 /\
  receiveMessage sample_state 1 [0x00; 0x3c; 0x00]
    = (RxAccepted, setTxCycleTime sample_state 60 0) /\
  receiveMessage sample_state 1 [0x00; 0x3c]
    = (RxAccepted, setTxCycleTime sample_state 60 CATCFG_INTERVAL_COUNT) /\
  (forall k, cycles k (snd (receiveMessage sample_state 1 [0x00; 0x3c; 0x00]))
             = snd (receiveMessage sample_state 1 [0x00; 0x3c; 0x00])) /\
  receiveMessage sample_state 1 [0x00; 0x3c; 0x00; 0x00] = (RxInvalid, sample_state).
Proof.
  split; [discriminate|].
  destruct (downlink_length_and_repeat sample_state 1 [0x00; 0x3c; 0x00]
              ltac:(discriminate)) as (_ & Hcount & _ & _ & Hacc3).
  destruct (downlink_length_and_repeat sample_state 1 [0x00; 0x3c]
              ltac:(discriminate)) as (_ & _ & _ & _ & Hacc2).
  destruct (downlink_length_and_repeat sample_state 1 [0x00; 0x3c; 0x00; 0x00]
              ltac:(discriminate)) as (Hinv & _).
  cbv zeta in *.
  pose proof (Hacc3 eq_refl (or_intror eq_refl)
                ltac:(vm_compute; split; discriminate)) as E3.
  pose proof (Hacc2 eq_refl (or_introl eq_refl)
                ltac:(vm_compute; split; discriminate)) as E2.
  split; [exact E3|]. split; [exact E2|]. split.
  - destruct (Hcount ltac:(rewrite E3; reflexivity)) as (_ & _ & _ & Hstick).
    apply Hstick. rewrite E3. reflexivity.
  - apply Hinv. intros [_ [H | H]]; discriminate H.
Defined.

(** Other ports and other lengths, and the reserved port 0. *)
Example downlink_rejected :
  receiveMessage sample_state 1 [0x00] = (RxInvalid, sample_state) /\
  receiveMessage sample_state 1 [0x00; 0x3c; 0x05; 0x00] = (RxInvalid, sample_state) /\
  receiveMessage sample_state 2 [0x00; 0x3c] = (RxInvalid, sample_state) /\
  receiveMessage sample_state 0 [0x00; 0x3c] = (RxMacMessage, sample_state).
Proof. repeat split. Qed.

(** ** Repeat counter *)

Lemma updateSleepCounters_decrement (s : State) :
  1 < gTxCycleCount s < 4294967296 ->
  gTxCycleCount (updateSleepCounters s) = gTxCycleCount s - 1 /\
  gTxCycle (updateSleepCounters s) = gTxCycle s.
Proof.
  intros H. unfold updateSleepCounters.
  destruct (Z.gtb_spec (gTxCycleCount s) 1) as [_ | Hle]; [|lia].
  cbn. split; [|reflexivity]. unfold uint32. apply Z.mod_small. lia.
Qed.

Lemma cycles_count_down (k : nat) : forall s : State,
  Z.of_nat k < gTxCycleCount s < 4294967296 ->
  gTxCycleCount (cycles k s) = gTxCycleCount s - Z.of_nat k /\
  gTxCycle (cycles k s) = gTxCycle s.
Proof.
  induction k as [|k IH]; intros s H.
  - cbn [cycles]. split; [cbn; lia | reflexivity].
  - cbn [cycles].
    destruct (updateSleepCounters_decrement s ltac:(lia)) as [Hc Ht].
    destruct (IH (updateSleepCounters s) ltac:(lia)) as [Hc' Ht'].
    rewrite Hc', Ht', Hc, Ht. split; [lia | reflexivity].
Qed.

Lemma updateSleepCounters_reset (s : State) :
  gTxCycleCount s = 1 ->
  gTxCycle (updateSleepCounters s) = CATCFG_T_CYCLE /\
  gTxCycleCount (updateSleepCounters s) = 0.
Proof.
  intros H. unfold updateSleepCounters. rewrite H. cbn. split; reflexivity.
Qed.

Lemma cycles_snoc (k : nat) : forall s : State,
  cycles (S k) s = updateSleepCounters (cycles k s).
Proof.
  induction k as [|k IH]; intros s; [reflexivity|].
  change (cycles (S (S k)) s) with (cycles (S k) (updateSleepCounters s)).
  rewrite IH. reflexivity.
Qed.

(** C7. The remaining-repeat counter [N]: above 1 it loses exactly 1 per
    cycle and the interval stays, so after [N - 1] cycles it is 1; at 1 the
    next cycle sets the interval to the compiled default [CATCFG_T_CYCLE]
    and the count to its resting value 0; at 0 neither the count nor the
    interval ever changes by itself. *)
Theorem repeat_counter (s : State) (N : Z) :
  gTxCycleCount s = N ->
  0 <= N < 4294967296 ->
  (1 < N ->
     gTxCycleCount (updateSleepCounters s) = N - 1 /\
     gTxCycle (updateSleepCounters s) = gTxCycle s /\
     gTxCycleCount (cycles (Z.to_nat (N - 1)) s) = 1 /\
     gTxCycle (cycles (Z.to_nat (N - 1)) s) = gTxCycle s /\
     gTxCycle (cycles (Z.to_nat N) s) = CATCFG_T_CYCLE /\
     gTxCycleCount (cycles (Z.to_nat N) s) = 0) /\
  (N = 1 ->
     gTxCycle (updateSleepCounters s) = CATCFG_T_CYCLE /\
     gTxCycleCount (updateSleepCounters s) = 0) /\
  (N = 0 -> forall k, cycles k s = s).
Proof.
  intros HN Hrange. split; [|split].
  - intros Hgt.
    destruct (updateSleepCounters_decrement s ltac:(lia)) as [Hc Ht].
    destruct (cycles_count_down (Z.to_nat (N - 1)) s ltac:(lia)) as [Hc1 Ht1].
    assert (Hone : gTxCycleCount (cycles (Z.to_nat (N - 1)) s) = 1) by lia.
    replace (Z.to_nat N) with (S (Z.to_nat (N - 1))) by lia.
    rewrite cycles_snoc.
    destruct (updateSleepCounters_reset _ Hone) as [Hr1 Hr2].
    repeat split; try assumption; lia.
  - intros ->. apply updateSleepCounters_reset. exact HN.
  - intros ->. intros k. apply cycles_zero_count. exact HN.
Qed.

Lemma repeat_counter_witness :
  gTxCycleCount sample_state = 10 /\
  0 <= 10 < 4294967296 /\
  gTxCycleCount (cycles 9 sample_state) = 1 /\
  gTxCycle (cycles 9 sample_state) = gTxCycle sample_state /\
  gTxCycle (cycles 10 sample_state) = CATCFG_T_CYCLE /\
  gTxCycleCount (cycles 10 sample_state) = 0.
Proof.
  split; [reflexivity|]. split; [lia|].
  destruct (repeat_counter sample_state 10 eq_refl ltac:(lia)) as [Hdec _].
  destruct (Hdec ltac:(lia)) as (_ & _ & H1 & H2 & H3 & H4).
  repeat split; assumption.
Defined.

(** ** Reboot deadline *)

Lemma updateSleepCounters_keeps (s : State) :
  gRebootMs (updateSleepCounters s) = gRebootMs s /\
  actions (updateSleepCounters s) = actions s.
Proof.
  unfold updateSleepCounters.
  destruct (gTxCycleCount s >? 1); [split; reflexivity|].
  destruct (gTxCycleCount s =? 1); split; reflexivity.
Qed.

Lemma settleDoneCb_keeps_deadline (pf : Platform) (s s' : State) (inp : Inputs) :
  settleDoneCb pf s inp = Continue s' -> gRebootMs s' = gRebootMs s.
Proof.
  unfold settleDoneCb.
  destruct (uint32 (millis inp) >? gRebootMs s); [discriminate|].
  intros H. injection H as <-.
  destruct (checkDeepSleep pf (OperatingFlags s) (Serial_dtr inp));
    destruct (g_fPrintedSleeping s); cbn;
    match goal with
    | |- context [updateSleepCounters ?x] =>
        destruct (updateSleepCounters_keeps x) as [-> _]
    end; reflexivity.
Qed.

Lemma receiveMessage_keeps_deadline (s : State) (port : Z) (msg : list Z) :
  gRebootMs (snd (receiveMessage s port msg)) = gRebootMs s.
Proof.
  unfold receiveMessage.
  repeat match goal with
         | |- context [if ?c then _ else _] => destruct c
         end; reflexivity.
Qed.

Lemma sendBufferDoneCb_keeps_deadline (pf : Platform) (s : State) (fStatus : bool) :
  gRebootMs (sendBufferDoneCb pf s fStatus) = gRebootMs s.
Proof.
  unfold sendBufferDoneCb. destruct fStatus, (IsProvisioned s); reflexivity.
Qed.

Lemma setup_uplink_deadline (pf : Platform) (s : State) (inp : Inputs) :
  gRebootMs (setup_uplink pf s inp) = computeRebootMs pf (os_getRndU2 inp).
Proof.
  unfold setup_uplink. cbn.
  destruct (flag_set (OperatingFlags s) (fManufacturingTest pf)), (IsProvisioned s);
    reflexivity.
Qed.

Lemma uint32_int32 (v : Z) : uint32 (int32 v) = uint32 v.
Proof.
  unfold uint32, int32.
  rewrite Zminus_mod_idemp_l.
  replace (v + 2147483648 - 2147483648) with v by lia. reflexivity.
Qed.

(** C8. The deadline the sketch means to store is the 30-day period plus
    the jitter (the 16-bit random value minus 32768, in [-32768, 32767]), in
    milliseconds, a value that fits 32 bits.  But the product is computed in
    [int], and for every random value it exceeds [INT_MAX]: what
    [setup_uplink] stores is what the build makes of the overflow.  It is
    the intended deadline on a build where [int] wraps around, and it is
    not on a build where the overflow comes out as [INT_MAX]. *)
Theorem reboot_product_exceeds_int (pf : Platform) (s : State) (inp : Inputs) :
  let jitter := uint16 (os_getRndU2 inp) - 32768 in
  let product := (CATCFG_T_REBOOT + jitter) * 1000 in
  -32768 <= jitter <= 32767 /\
  CATCFG_T_REBOOT = 30 * 24 * 60 * 60 /\
  2559232000 <= product <= 2624767000 /\
  uint32 product = product /\
  INT_MAX < product /\
  gRebootMs (setup_uplink pf s inp) = uint32 (overflowed_int pf product) /\
  (overflowed_int pf product = int32 product ->
   gRebootMs (setup_uplink pf s inp) = product) /\
  (overflowed_int pf product = INT_MAX ->
   gRebootMs (setup_uplink pf s inp) = 2147483647 /\
   gRebootMs (setup_uplink pf s inp) < product).
Proof.
  cbv zeta.
  pose proof (uint16_range (os_getRndU2 inp)) as Hr.
  set (rnd := uint16 (os_getRndU2 inp)) in *.
  assert (Hprod : 2559232000 <= (CATCFG_T_REBOOT + (rnd - 32768)) * 1000 <= 2624767000)
    by (change CATCFG_T_REBOOT with 2592000; lia).
  assert (Hfit : uint32 ((CATCFG_T_REBOOT + (rnd - 32768)) * 1000)
                 = (CATCFG_T_REBOOT + (rnd - 32768)) * 1000)
    by (unfold uint32; apply Z.mod_small; lia).
  assert (Hstored : gRebootMs (setup_uplink pf s inp)
                    = uint32 (overflowed_int pf ((CATCFG_T_REBOOT + (rnd - 32768)) * 1000))).
  { rewrite setup_uplink_deadline. unfold computeRebootMs. fold rnd.
    assert (E1 : int_result pf (CATCFG_T_REBOOT + rnd) = CATCFG_T_REBOOT + rnd).
    { unfold int_result, INT_MIN, INT_MAX. change CATCFG_T_REBOOT with 2592000.
      destruct (Z.leb_spec (-2147483648) (2592000 + rnd)); [|lia].
      destruct (Z.leb_spec (2592000 + rnd) 2147483647); [reflexivity | lia]. }
    cbv zeta. rewrite E1.
    assert (E2 : int_result pf (CATCFG_T_REBOOT + rnd - 32768)
                 = CATCFG_T_REBOOT + rnd - 32768).
    { unfold int_result, INT_MIN, INT_MAX. change CATCFG_T_REBOOT with 2592000.
      destruct (Z.leb_spec (-2147483648) (2592000 + rnd - 32768)); [|lia].
      destruct (Z.leb_spec (2592000 + rnd - 32768) 2147483647); [reflexivity | lia]. }
    rewrite E2.
    replace (CATCFG_T_REBOOT + rnd - 32768) with (CATCFG_T_REBOOT + (rnd - 32768)) by lia.
    unfold int_result, INT_MIN, INT_MAX.
    destruct (Z.leb_spec ((CATCFG_T_REBOOT + (rnd - 32768)) * 1000) 2147483647); [lia|].
    rewrite andb_false_r. reflexivity. }
  split; [lia|]. split; [reflexivity|]. split; [exact Hprod|]. split; [exact Hfit|].
  split; [unfold INT_MAX; lia|]. split; [exact Hstored|]. split.
  - intros Hw. rewrite Hstored, Hw, uint32_int32. exact Hfit.
  - intros Hsat. rewrite Hstored, Hsat. unfold INT_MAX. split; [reflexivity|].
    change (uint32 2147483647) with 2147483647. lia.
Qed.

(** The first random value, on the two sample builds: 2 147 483 647 ms
    (24.86 days) where 2 559 232 000 ms is meant, and the value meant. *)
Example reboot_deadline_for_rnd_0 :
  computeRebootMs sample_platform 0 = 2147483647 /\
  computeRebootMs wrapping_platform 0 = 2559232000.
Proof. split; reflexivity. Qed.

(** ** Send failure without provisioning *)

Lemma receiveMessage_keeps_cycle (s : State) (port : Z) (msg : list Z) :
  let s' := snd (receiveMessage s port msg) in
  IsProvisioned s' = IsProvisioned s /\ sendPending s' = sendPending s /\
  sensorJob s' = sensorJob s /\ actions s' = actions s.
Proof.
  cbv zeta. unfold receiveMessage.
  repeat match goal with
         | |- context [if ?c then _ else _] => destruct c
         end; repeat split; reflexivity.
Qed.

Lemma setup_unprovisioned (pf : Platform) (flags : Z) (history : list Action)
    (inp : Inputs) :
  let s' := setup pf flags false history inp in
  parked s' /\ actions s' = history.
Proof.
  cbv zeta. unfold setup, setup_uplink, parked. cbn.
  destruct (flag_set flags (fManufacturingTest pf)); cbn;
    repeat split; try reflexivity; left; reflexivity.
Qed.

(** A parked state stays parked, and nothing is sent, as long as
    provisioning is not restored. *)
Lemma step_parked (pf : Platform) (s : State) (ev : Event) :
  parked s ->
  restores_provisioning ev = false ->
  parked (step pf s ev) /\ sends (actions (step pf s ev)) = sends (actions s).
Proof.
  intros (Hprov & Hpend & Hjob) Hev.
  destruct ev as [inp | fStatus | port msg | inp | inp | p]; cbn [step].
  - destruct Hjob as [Hj | [d Hj]]; rewrite Hj.
    + split; [|reflexivity]. unfold parked. auto.
    + cbn. split; [|reflexivity]. unfold parked. cbn. auto.
  - rewrite Hpend. split; [|reflexivity]. unfold parked. auto.
  - destruct (receiveMessage_keeps_cycle s port msg) as (H1 & H2 & H3 & H4).
    unfold parked. rewrite H1, H2, H3, H4. auto.
  - split; [|reflexivity]. unfold parked. auto.
  - rewrite Hprov.
    destruct (setup_unprovisioned pf (OperatingFlags s) (actions s) inp) as [Hp Ha].
    rewrite Ha. auto.
  - cbn in Hev. subst p. split; [|reflexivity]. unfold parked. cbn. auto.
Qed.

Lemma run_parked (pf : Platform) (evs : list Event) : forall s : State,
  parked s ->
  forallb (fun ev => negb (restores_provisioning ev)) evs = true ->
  parked (run pf s evs) /\ sends (actions (run pf s evs)) = sends (actions s).
Proof.
  induction evs as [|ev evs IH]; intros s Hp Hevs.
  - split; [exact Hp | reflexivity].
  - cbn [forallb] in Hevs. apply andb_true_iff in Hevs as [Hev Hevs].
    apply negb_true_iff in Hev.
    destruct (step_parked pf s ev Hp Hev) as [Hp' Hs'].
    destruct (IH (step pf s ev) Hp' Hevs) as [Hp'' Hs''].
    cbn [run]. split; [exact Hp''|]. rewrite Hs''. exact Hs'.
Qed.

(** C9. When a send completes with failure while the device is not
    provisioned, the only callback armed is the "not provisioned" notice,
    and from then on no sequence of timer expiries, completions, downlinks,
    loop passes and restarts makes the sketch call [SendBuffer] again, as
    long as no event restores provisioning. *)
Theorem no_send_after_unprovisioned_failure
    (pf : Platform) (s : State) (evs : list Event) :
  sendPending s = true ->
  IsProvisioned s = false ->
  forallb (fun ev => negb (restores_provisioning ev)) evs = true ->
  let s' := step pf s (EvSendDone false) in
  sensorJob s' = Some (sec2osticks pf CATCFG_T_SETTLE, txNotProvisionedCb_) /\
  sends (actions s') = sends (actions s) /\
  sends (actions (run pf s' evs)) = sends (actions s').
Proof.
  intros Hpend Hprov Hevs. cbv zeta.
  assert (Hstep : step pf s (EvSendDone false)
                  = os_setTimedCallback (act (with_pending s false) AShutdown)
                      (sec2osticks pf CATCFG_T_SETTLE) txNotProvisionedCb_).
  { cbn [step]. rewrite Hpend. unfold sendBufferDoneCb. cbn. rewrite Hprov. reflexivity. }
  rewrite Hstep. split; [reflexivity|]. split; [reflexivity|].
  apply run_parked; [|exact Hevs].
  unfold parked. cbn. repeat split; try assumption. right. eexists. reflexivity.
Qed.

Lemma no_send_after_unprovisioned_failure_witness :
  sendPending unprovisioned_state = true /\
  IsProvisioned unprovisioned_state = false /\
  forallb (fun ev => negb (restores_provisioning ev)) quiet_events = true /\
  let s' := step sample_platform unprovisioned_state (EvSendDone false) in
  sensorJob s' = Some (sec2osticks sample_platform CATCFG_T_SETTLE, txNotProvisionedCb_) /\
  sends (actions s') = sends (actions unprovisioned_state) /\
  sends (actions (run sample_platform s' quiet_events)) = sends (actions s').
Proof.
  split; [reflexivity|]. split; [reflexivity|]. split; [reflexivity|].
  exact (no_send_after_unprovisioned_failure sample_platform unprovisioned_state
           quiet_events eq_refl eq_refl eq_refl).
Defined.

(** On a provisioned device a failed send keeps the cycle going: settle,
    sleep, warm-up and the next send. *)
Example provisioned_failure_keeps_sending :
  sends (actions (run sample_platform sample_state
                    [EvSendDone false; EvTimer sample_inputs; EvTimer sample_inputs;
                     EvTimer sample_inputs])) = 1%nat.
Proof. reflexivity. Qed.

(** ** Base name of a path *)

Lemma filebasename2_no_separator (p : string) : forall s : string,
  no_separator p = true -> filebasename2 s p = s.
Proof.
  induction p as [|c p IH]; intros s H; [reflexivity|].
  cbn in H |- *. apply andb_true_iff in H as [Hc Hp].
  apply negb_true_iff in Hc. rewrite Hc. apply IH. exact Hp.
Qed.

Lemma filebasename2_after_last (pre : string) : forall (s : string) sep name,
  is_separator sep = true ->
  no_separator name = true ->
  filebasename2 s (pre ++ String sep name)%string = name.
Proof.
  induction pre as [|c pre IH]; intros s sep name Hsep Hname.
  - cbn. rewrite Hsep. apply filebasename2_no_separator. exact Hname.
  - cbn. destruct (is_separator c); apply IH; assumption.
Qed.

(** Every string either has no separator or splits at its last one. *)
Lemma split_at_last_separator (s : string) :
  no_separator s = true \/
  exists pre sep name,
    is_separator sep = true /\ no_separator name = true /\
    s = (pre ++ String sep name)%string.
Proof.
  induction s as [|c s IH]; [left; reflexivity|].
  destruct IH as [Hno | (pre & sep & name & Hsep & Hname & ->)].
  - destruct (is_separator c) eqn:Hc.
    + right. exists EmptyString, c, s. repeat split; assumption.
    + left. cbn. rewrite Hc, Hno. reflexivity.
  - right. exists (String c pre), sep, name. repeat split; assumption.
Qed.

(** X1. [filebasename] strips the directories: for a path that ends in a
    separator (['/'] or ['\']) followed by a name without separators, the
    result is that name, whatever comes before. *)
Theorem filebasename_strips_directories (dir : string) (sep : ascii) (name : string) :
  is_separator sep = true ->
  no_separator name = true ->
  filebasename (dir ++ String sep name)%string = name.
Proof.
  intros Hsep Hname. unfold filebasename.
  apply filebasename2_after_last; assumption.
Qed.

Lemma filebasename_strips_directories_witness :
  is_separator (ascii_of_nat 47) = true /\
  no_separator "Catena_Iqs620a_lorawan.ino"%string = true /\
  filebasename ("/home/user/sketches" ++ String (ascii_of_nat 47) "Catena_Iqs620a_lorawan.ino")%string
  = "Catena_Iqs620a_lorawan.ino"%string.
Proof.
  split; [reflexivity|]. split; [reflexivity|].
  apply (filebasename_strips_directories "/home/user/sketches"%string);
    reflexivity.
Defined.

(** X2. The result of [filebasename] never contains a separator; it is a
    suffix of the argument, the whole argument or the part right after a
    separator; and applying [filebasename] again changes nothing. *)
Theorem filebasename_is_last_component (s : string) :
  no_separator (filebasename s) = true /\
  (exists pre : string,
     s = (pre ++ filebasename s)%string /\
     (pre = EmptyString \/
      exists pre' sep, pre = (pre' ++ String sep EmptyString)%string
                       /\ is_separator sep = true)) /\
  filebasename (filebasename s) = filebasename s.
Proof.
  assert (Hfix : forall n, no_separator n = true -> filebasename n = n).
  { intros n Hn. unfold filebasename. apply filebasename2_no_separator. exact Hn. }
  destruct (split_at_last_separator s) as [Hno | (pre & sep & name & Hsep & Hname & ->)].
  - rewrite (Hfix s Hno). split; [exact Hno|]. split; [|apply Hfix; exact Hno].
    exists EmptyString. split; [reflexivity | left; reflexivity].
  - assert (E : filebasename (pre ++ String sep name)%string = name)
      by (apply filebasename2_after_last; assumption).
    rewrite E.
    split; [exact Hname|]. split; [|apply Hfix; exact Hname].
    exists (pre ++ String sep EmptyString)%string. split.
    + clear. induction pre as [|c pre IH]; [reflexivity|]. cbn. rewrite <- IH. reflexivity.
    + right. exists pre, sep. split; [reflexivity | exact Hsep].
Qed.

(** ** Sleep interval *)

(** X3. [CATCFG_GetInterval] never returns less than one second; above the
    per-cycle overhead it returns the cycle minus the overhead, so that
    interval plus overhead is the requested cycle; and a longer cycle never
    gets a shorter interval. *)
Theorem GetInterval_compensates (a b : Z) :
  a <= b ->
  1 <= CATCFG_GetInterval a /\
  CATCFG_GetInterval a <= CATCFG_GetInterval b /\
  (CATCFG_T_OVERHEAD < a -> CATCFG_GetInterval a + CATCFG_T_OVERHEAD = a) /\
  (a <= CATCFG_T_OVERHEAD -> CATCFG_GetInterval a = 1).
Proof.
  intros Hab. unfold CATCFG_GetInterval. change CATCFG_T_OVERHEAD with 10.
  destruct (Z.ltb_spec a (10 + 1)); destruct (Z.ltb_spec b (10 + 1)); lia.
Qed.

Lemma GetInterval_compensates_witness :
  30 <= 360 /\
  1 <= CATCFG_GetInterval 30 /\
  CATCFG_GetInterval 30 <= CATCFG_GetInterval 360 /\
  (CATCFG_T_OVERHEAD < 30 -> CATCFG_GetInterval 30 + CATCFG_T_OVERHEAD = 30) /\
  (30 <= CATCFG_T_OVERHEAD -> CATCFG_GetInterval 30 = 1).
Proof.
  split; [lia|]. apply (GetInterval_compensates 30 360). lia.
Defined.

(** ** Flag union *)

Lemma uint8_land (z : Z) : uint8 z = Z.land z 255.
Proof.
  unfold uint8. change 255 with (Z.ones 8). rewrite Z.land_ones by lia. reflexivity.
Qed.

Lemma uint8_range (z : Z) : 0 <= uint8 z < 256.
Proof. unfold uint8. apply Z.mod_pos_bound. lia. Qed.

Lemma uint8_testbit (z k : Z) :
  0 <= k -> Z.testbit (uint8 z) k = Z.testbit z k && (k <? 8).
Proof.
  intros Hk. unfold uint8. change 256 with (2 ^ 8).
  destruct (Z.ltb_spec k 8).
  - rewrite Z.mod_pow2_bits_low by lia. rewrite andb_true_r. reflexivity.
  - rewrite Z.mod_pow2_bits_high by lia. rewrite andb_false_r. reflexivity.
Qed.

(** X4. The union of flags ([operator|] and [operator|=]) is a byte; bit
    [k] of the result, for [k] below 8, is set exactly when it is set in one
    of the operands; the operation is commutative and associative, and
    adding a flag twice is adding it once. *)
Theorem flag_union_is_bitwise (a b c : Z) :
  0 <= FlagsSensorPort1.or a b < 256 /\
  (forall k, 0 <= k ->
     Z.testbit (FlagsSensorPort1.or a b) k
     = (Z.testbit a k || Z.testbit b k) && (k <? 8)) /\
  FlagsSensorPort1.or a b = FlagsSensorPort1.or b a /\
  FlagsSensorPort1.or (FlagsSensorPort1.or a b) c
    = FlagsSensorPort1.or a (FlagsSensorPort1.or b c) /\
  FlagsSensorPort1.or (FlagsSensorPort1.or a b) b = FlagsSensorPort1.or a b.
Proof.
  assert (Hbits : forall x y k, 0 <= k ->
            Z.testbit (FlagsSensorPort1.or x y) k
            = (Z.testbit x k || Z.testbit y k) && (k <? 8)).
  { intros x y k Hk. unfold FlagsSensorPort1.or.
    rewrite Z.lor_spec, !uint8_testbit by exact Hk.
    destruct (Z.testbit x k), (Z.testbit y k), (k <? 8); reflexivity. }
  assert (Hnn : forall x y, 0 <= FlagsSensorPort1.or x y).
  { intros x y. unfold FlagsSensorPort1.or. apply Z.lor_nonneg.
    split; apply uint8_range. }
  split.
  { split; [apply Hnn|].
    destruct (Z.eq_dec (FlagsSensorPort1.or a b) 0) as [-> | Hnz]; [lia|].
    change 256 with (2 ^ 8). apply Z.log2_lt_pow2; [specialize (Hnn a b); lia|].
    destruct (Z.lt_ge_cases (Z.log2 (FlagsSensorPort1.or a b)) 8) as [|Hge];
      [assumption|].
    pose proof (Z.bit_log2 (FlagsSensorPort1.or a b) ltac:(specialize (Hnn a b); lia))
      as Hb.
    rewrite Hbits in Hb by lia.
    destruct (Z.ltb_spec (Z.log2 (FlagsSensorPort1.or a b)) 8); [lia|].
    rewrite andb_false_r in Hb. discriminate. }
  split; [intros k Hk; apply Hbits; exact Hk|].
  split; [|split]; apply Z.bits_inj'; intros k Hk; rewrite !Hbits by exact Hk;
    destruct (Z.testbit a k), (Z.testbit b k), (Z.testbit c k), (k <? 8);
    reflexivity.
Qed.

(** ** Reachable states of the scheduler *)

Lemma updateSleepCounters_timing_ok (s : State) :
  timing_ok s -> timing_ok (updateSleepCounters s).
Proof.
  unfold timing_ok, updateSleepCounters.
  change CATCFG_T_MIN with 10. change CATCFG_T_MAX with 3600.
  intros [Hc Hn].
  destruct (Z.gtb_spec (gTxCycleCount s) 1).
  - cbn. unfold uint32. rewrite Z.mod_small by lia. lia.
  - destruct (Z.eqb_spec (gTxCycleCount s) 1); cbn.
    + change CATCFG_T_CYCLE with 360. lia.
    + lia.
Qed.

Lemma updateSleepCounters_frame (s : State) :
  sensorJob (updateSleepCounters s) = sensorJob s /\
  sendPending (updateSleepCounters s) = sendPending s /\
  OperatingFlags (updateSleepCounters s) = OperatingFlags s /\
  IsProvisioned (updateSleepCounters s) = IsProvisioned s /\
  fProximity (updateSleepCounters s) = fProximity s /\
  g_fPrintedSleeping (updateSleepCounters s) = g_fPrintedSleeping s.
Proof.
  unfold updateSleepCounters.
  destruct (gTxCycleCount s >? 1); [repeat split|].
  destruct (gTxCycleCount s =? 1); repeat split.
Qed.

Lemma receiveMessage_timing_ok (s : State) (port : Z) (msg : list Z) :
  timing_ok s -> timing_ok (snd (receiveMessage s port msg)).
Proof.
  intros Hs. unfold receiveMessage.
  destruct (port =? 0); [exact Hs|].
  destruct (negb ((port =? 1) && (2 <=? Z.of_nat (length msg))
                  && (Z.of_nat (length msg) <=? 3))); [exact Hs|].
  match goal with
  | |- context [if (?t <? _) || (?t >? _) then _ else _] => set (txCycle := t)
  end.
  destruct (Z.ltb_spec txCycle CATCFG_T_MIN); [exact Hs|].
  destruct (Z.gtb_spec txCycle CATCFG_T_MAX); [exact Hs|].
  cbn. unfold timing_ok; cbn.
  change CATCFG_T_MIN with 10 in *. change CATCFG_T_MAX with 3600 in *.
  split; [lia|].
  destruct (Z.of_nat (length msg) >=? 3).
  - pose proof (msg_at_range msg 2). lia.
  - change CATCFG_INTERVAL_COUNT with 30. lia.
Qed.

Lemma setup_timing (pf : Platform) (flags : Z) (provisioned : bool)
    (history : list Action) (inp : Inputs) :
  let s := setup pf flags provisioned history inp in
  gTxCycle s = CATCFG_T_CYCLE_INITIAL /\
  gTxCycleCount s = CATCFG_INTERVAL_COUNT_INITIAL /\
  sensorJob s = None /\
  OperatingFlags s = flags /\
  IsProvisioned s = provisioned /\
  g_fPrintedSleeping s = false /\
  fProximity s = iqs_begin inp.
Proof.
  cbv zeta. unfold setup, setup_uplink. cbn.
  destruct (flag_set flags (fManufacturingTest pf)), provisioned, (iqs_begin inp);
    repeat split.
Qed.

Lemma setup_timing_ok (pf : Platform) (flags : Z) (provisioned : bool)
    (history : list Action) (inp : Inputs) :
  timing_ok (setup pf flags provisioned history inp).
Proof.
  destruct (setup_timing pf flags provisioned history inp) as (H1 & H2 & _).
  unfold timing_ok. rewrite H1, H2. vm_compute. repeat split; discriminate.
Qed.

Lemma settleDoneCb_timing_ok (pf : Platform) (s s' : State) (inp : Inputs) :
  timing_ok s -> settleDoneCb pf s inp = Continue s' -> timing_ok s'.
Proof.
  intros Hs. unfold settleDoneCb.
  destruct (uint32 (millis inp) >? gRebootMs s); [discriminate|].
  intros H. injection H as <-.
  assert (Hu : forall x, timing_ok x -> timing_ok (updateSleepCounters x))
    by apply updateSleepCounters_timing_ok.
  destruct (checkDeepSleep pf (OperatingFlags s) (Serial_dtr inp));
    destruct (g_fPrintedSleeping s); cbn;
    match goal with
    | |- timing_ok ?t =>
        match t with
        | context [updateSleepCounters ?x] =>
            specialize (Hu x Hs); unfold timing_ok in *; cbn in *; exact Hu
        end
    end.
Qed.

Lemma step_timing_ok (pf : Platform) (s : State) (ev : Event) :
  timing_ok s -> timing_ok (step pf s ev).
Proof.
  intros Hs.
  destruct ev as [inp | fStatus | port msg | inp | inp | p]; cbn [step].
  - destruct (sensorJob s) as [[d cb]|]; [|exact Hs].
    destruct cb; cbn [run_callback].
    + destruct (settleDoneCb pf (with_job s None) inp) as [s'|] eqn:E.
      * eapply settleDoneCb_timing_ok; [|exact E]. exact Hs.
      * apply setup_timing_ok.
    + exact Hs.
    + exact Hs.
    + exact Hs.
  - destruct (sendPending s); [|exact Hs].
    unfold sendBufferDoneCb. cbn. destruct fStatus, (IsProvisioned s); exact Hs.
  - apply receiveMessage_timing_ok. exact Hs.
  - exact Hs.
  - apply setup_timing_ok.
  - exact Hs.
Qed.

(** X5. In every state the device can reach from boot, whatever events
    occur, the cycle time lies within [CATCFG_T_MIN, CATCFG_T_MAX] and the
    repeat count within 0..255; hence the interval it sleeps is at least one
    second and at most the maximum cycle minus the overhead. *)
Theorem cadence_always_within_bounds (pf : Platform) (flags : Z) (provisioned : bool)
    (history : list Action) (inp : Inputs) (evs : list Event) :
  let s := run pf (setup pf flags provisioned history inp) evs in
  CATCFG_T_MIN <= gTxCycle s <= CATCFG_T_MAX /\
  0 <= gTxCycleCount s <= 255 /\
  1 <= CATCFG_GetInterval (gTxCycle s) <= CATCFG_T_MAX - CATCFG_T_OVERHEAD.
Proof.
  cbv zeta.
  assert (H : timing_ok (run pf (setup pf flags provisioned history inp) evs)).
  { generalize (setup_timing_ok pf flags provisioned history inp).
    generalize (setup pf flags provisioned history inp).
    induction evs as [|ev evs IH]; intros s Hs; [exact Hs|].
    cbn [run]. apply IH, step_timing_ok, Hs. }
  destruct H as [Hc Hn]. split; [exact Hc|]. split; [exact Hn|].
  revert Hc. unfold CATCFG_GetInterval.
  change CATCFG_T_MIN with 10. change CATCFG_T_MAX with 3600.
  change CATCFG_T_OVERHEAD with 10.
  destruct (Z.ltb_spec (gTxCycle (run pf (setup pf flags provisioned history inp) evs))
              (10 + 1)); lia.
Qed.

Lemma settleDoneCb_frame (pf : Platform) (s s' : State) (inp : Inputs) :
  settleDoneCb pf s inp = Continue s' ->
  sendPending s' = sendPending s /\
  sends (actions s') = sends (actions s) /\
  IsProvisioned s' = IsProvisioned s /\
  OperatingFlags s' = OperatingFlags s /\
  g_fPrintedSleeping s' = true /\
  exists job, sensorJob s' = Some job.
Proof.
  unfold settleDoneCb.
  destruct (uint32 (millis inp) >? gRebootMs s); [discriminate|].
  intros H. injection H as <-.
  destruct (checkDeepSleep pf (OperatingFlags s) (Serial_dtr inp));
    destruct (g_fPrintedSleeping s) eqn:Hp; cbn;
    match goal with
    | |- context [updateSleepCounters ?x] =>
        destruct (updateSleepCounters_frame x) as (_ & -> & -> & -> & _ & ->);
        destruct (updateSleepCounters_keeps x) as (_ & ->)
    end; cbn; rewrite ?Hp; repeat split; eexists; reflexivity.
Qed.

Lemma setup_sends (pf : Platform) (flags : Z) (provisioned : bool)
    (history : list Action) (inp : Inputs) :
  let s := setup pf flags provisioned history inp in
  if negb (flag_set flags (fManufacturingTest pf)) && provisioned
  then actions s
       = ASendBuffer (fillBuffer (iqs_begin inp) (readings inp))
           (flag_set flags (fConfirmedUplink pf)) 1 :: history
       /\ sendPending s = true
  else actions s = history /\ sendPending s = false.
Proof.
  cbv zeta. unfold setup, setup_uplink, startSendingUplink, setup_iqs. cbn.
  destruct (flag_set flags (fManufacturingTest pf)), provisioned, (iqs_begin inp);
    cbn; split; reflexivity.
Qed.

Lemma setup_one_activity (pf : Platform) (flags : Z) (provisioned : bool)
    (history : list Action) (inp : Inputs) :
  let s := setup pf flags provisioned history inp in
  one_activity s /\
  (sends (actions s) = sends history \/
   (sends (actions s) = S (sends history) /\ sendPending s = true /\ sensorJob s = None)).
Proof.
  cbv zeta.
  destruct (setup_timing pf flags provisioned history inp) as (_ & _ & Hjob & _).
  pose proof (setup_sends pf flags provisioned history inp) as Hs. cbv zeta in Hs.
  split; [intros _; exact Hjob|].
  destruct (negb (flag_set flags (fManufacturingTest pf)) && provisioned);
    destruct Hs as [Ha Hp]; rewrite Ha.
  - right. repeat split; assumption.
  - left. reflexivity.
Qed.

Lemma step_one_activity (pf : Platform) (s : State) (ev : Event) :
  one_activity s ->
  one_activity (step pf s ev) /\ at_most_one_send s (step pf s ev).
Proof.
  unfold one_activity, at_most_one_send. intros Hs.
  destruct ev as [inp | fStatus | port msg | inp | inp | p]; cbn [step].
  - destruct (sensorJob s) as [[d cb]|] eqn:Hjob;
      [|split; [intros _; exact Hjob | left; reflexivity]].
    assert (Hpend : sendPending s = false).
    { destruct (sendPending s); [|reflexivity]. specialize (Hs eq_refl). discriminate. }
    destruct cb; cbn [run_callback].
    + destruct (settleDoneCb pf (with_job s None) inp) as [s'|] eqn:E.
      * apply settleDoneCb_frame in E as (Hp & Ha & _). cbn in Hp, Ha.
        split; [rewrite Hp, Hpend; discriminate | left; exact Ha].
      * apply setup_one_activity.
    + split; [intros _; reflexivity|]. right. repeat split.
    + split; [intros _; reflexivity|]. left. reflexivity.
    + cbn. split; [rewrite Hpend; discriminate | left; reflexivity].
  - destruct (sendPending s) eqn:Hpend; [|split; [rewrite Hpend; discriminate | left; reflexivity]].
    unfold sendBufferDoneCb. cbn.
    destruct fStatus, (IsProvisioned s); cbn;
      (split; [discriminate | left; reflexivity]).
  - destruct (receiveMessage_keeps_cycle s port msg) as (_ & H2 & H3 & H4).
    rewrite H2, H3, H4. split; [exact Hs | left; reflexivity].
  - split; [exact Hs | left; reflexivity].
  - apply setup_one_activity.
  - cbn. split; [exact Hs | left; reflexivity].
Qed.

(** X6. One send at a time: in every state reachable from boot, no timed
    callback is armed while a send awaits its completion, and one more event
    adds at most one call of [SendBuffer], which leaves exactly that send
    in flight and nothing armed. *)
Theorem one_send_at_a_time (pf : Platform) (flags : Z) (provisioned : bool)
    (history : list Action) (inp : Inputs) (evs : list Event) (ev : Event) :
  let s := run pf (setup pf flags provisioned history inp) evs in
  let s' := step pf s ev in
  (sendPending s = true -> sensorJob s = None) /\
  (sends (actions s') = sends (actions s) \/
   (sends (actions s') = S (sends (actions s)) /\
    sendPending s' = true /\ sensorJob s' = None)).
Proof.
  cbv zeta.
  assert (H : one_activity (run pf (setup pf flags provisioned history inp) evs)).
  { generalize (proj1 (setup_one_activity pf flags provisioned history inp)).
    generalize (setup pf flags provisioned history inp).
    induction evs as [|e evs IH]; intros s Hs; [exact Hs|].
    cbn [run]. apply IH, (step_one_activity pf s e Hs). }
  split; [exact H|]. apply (step_one_activity pf _ ev H).
Qed.

(** ** Boot *)

(** X7. [setup] from reset.  In a build with USB, with the unattended
    flag clear, when no host ever opens the serial port, [setup] never gets
    past its wait and nothing is sent.  In every other case it returns with
    the initial cadence (30 s for 10 cycles), the sleep notice not printed,
    nothing armed and the deadline [setup_uplink] stores, and the first
    uplink is sent exactly when the device is provisioned and not in
    manufacturing test. *)
Theorem boot_sends_iff_provisioned (pf : Platform) (flags : Z) (provisioned : bool)
    (history : list Action) (inp : Inputs) (Serial_opens : bool) :
  match setup_from_reset pf flags provisioned history inp Serial_opens with
  | None =>
      USBCON pf = true /\ flag_set flags (fUnattended pf) = false /\
      Serial_opens = false
  | Some s =>
      (USBCON pf = false \/ flag_set flags (fUnattended pf) = true \/
       Serial_opens = true) /\
      gTxCycle s = 30 /\ gTxCycleCount s = 10 /\
      g_fPrintedSleeping s = false /\ sensorJob s = None /\
      gRebootMs s = computeRebootMs pf (os_getRndU2 inp) /\
      (if negb (flag_set flags (fManufacturingTest pf)) && provisioned
       then actions s
            = ASendBuffer (fillBuffer (iqs_begin inp) (readings inp))
                (flag_set flags (fConfirmedUplink pf)) 1 :: history
            /\ sendPending s = true
       else actions s = history /\ sendPending s = false)
  end.
Proof.
  unfold setup_from_reset, wait_for_Serial.
  destruct (setup_timing pf flags provisioned history inp)
    as (H1 & H2 & H3 & _ & _ & H6 & _).
  assert (Hd : gRebootMs (setup pf flags provisioned history inp)
               = computeRebootMs pf (os_getRndU2 inp)).
  { unfold setup. apply setup_uplink_deadline. }
  pose proof (setup_sends pf flags provisioned history inp) as Hs. cbv zeta in Hs.
  destruct (USBCON pf), (flag_set flags (fUnattended pf)), Serial_opens; cbn;
    try (repeat split; reflexivity);
    (split; [auto|]); repeat (split; [assumption|]); exact Hs.
Qed.

Lemma step_bench_idle (pf : Platform) (s : State) (ev : Event) :
  bench_idle pf s ->
  bench_idle pf (step pf s ev) /\ actions (step pf s ev) = actions s.
Proof.
  unfold bench_idle. intros (Hm & Hj & Hp).
  destruct ev as [inp | fStatus | port msg | inp | inp | p]; cbn [step].
  - rewrite Hj. auto.
  - rewrite Hp. auto.
  - destruct (receiveMessage_keeps_cycle s port msg) as (_ & H2 & H3 & H4).
    rewrite H2, H3, H4.
    assert (Hf : OperatingFlags (snd (receiveMessage s port msg)) = OperatingFlags s).
    { unfold receiveMessage.
      repeat match goal with
             | |- context [if ?c then _ else _] => destruct c
             end; reflexivity. }
    rewrite Hf. auto.
  - auto.
  - destruct (setup_timing pf (OperatingFlags s) (IsProvisioned s) (actions s) inp)
      as (_ & _ & H3 & H4 & _).
    pose proof (setup_sends pf (OperatingFlags s) (IsProvisioned s) (actions s) inp) as Hs.
    cbv zeta in Hs. rewrite Hm in Hs. cbn in Hs. destruct Hs as [Ha Hpp].
    rewrite H3, H4, Ha, Hpp. auto.
  - cbn. auto.
Qed.

Lemma run_bench_idle (pf : Platform) (evs : list Event) : forall s : State,
  bench_idle pf s -> actions (run pf s evs) = actions s.
Proof.
  induction evs as [|e evs IH]; intros s Hidle; [reflexivity|].
  cbn [run]. destruct (step_bench_idle pf s e Hidle) as [Hi Ha].
  rewrite (IH _ Hi). exact Ha.
Qed.

(** X8. Manufacturing test: a device booted with the manufacturing-test
    flag set never calls [SendBuffer], never sleeps and never shuts the
    radio down, whatever events follow (timers, completions, downlinks,
    loop passes, restarts, provisioning changes). *)
Theorem manufacturing_test_never_sends (pf : Platform) (flags : Z)
    (provisioned : bool) (history : list Action) (inp : Inputs) (evs : list Event) :
  flag_set flags (fManufacturingTest pf) = true ->
  actions (run pf (setup pf flags provisioned history inp) evs) = history.
Proof.
  intros Hm.
  assert (H0 : bench_idle pf (setup pf flags provisioned history inp)
               /\ actions (setup pf flags provisioned history inp) = history).
  { destruct (setup_timing pf flags provisioned history inp) as (_ & _ & H3 & H4 & _).
    pose proof (setup_sends pf flags provisioned history inp) as Hs.
    cbv zeta in Hs. rewrite Hm in Hs. cbn in Hs. destruct Hs as [Ha Hp].
    unfold bench_idle. rewrite H3, H4. auto. }
  destruct H0 as [Hidle Ha].
  rewrite (run_bench_idle pf evs _ Hidle). exact Ha.
Qed.

Lemma manufacturing_test_never_sends_witness :
  flag_set 2 (fManufacturingTest sample_platform) = true /\
  actions (run sample_platform (setup sample_platform 2 true [] sample_inputs)
             quiet_events) = [].
Proof.
  split; [reflexivity|].
  apply (manufacturing_test_never_sends sample_platform 2 true [] sample_inputs
           quiet_events).
  reflexivity.
Defined.

(** X9. A device booted without provisioning sends nothing, at boot or
    later, as long as no event restores provisioning. *)
Theorem unprovisioned_boot_never_sends (pf : Platform) (flags : Z)
    (history : list Action) (inp : Inputs) (evs : list Event) :
  forallb (fun ev => negb (restores_provisioning ev)) evs = true ->
  sends (actions (run pf (setup pf flags false history inp) evs)) = sends history.
Proof.
  intros Hevs.
  destruct (setup_unprovisioned pf flags history inp) as [Hp Ha].
  destruct (run_parked pf evs _ Hp Hevs) as [_ Hs].
  rewrite Hs, Ha. reflexivity.
Qed.

Lemma unprovisioned_boot_never_sends_witness :
  forallb (fun ev => negb (restores_provisioning ev)) quiet_events = true /\
  sends (actions (run sample_platform (setup sample_platform 0 false [] sample_inputs)
                    quiet_events)) = sends [].
Proof.
  split; [reflexivity|].
  apply (unprovisioned_boot_never_sends sample_platform 0 [] sample_inputs
           quiet_events).
  reflexivity.
Defined.

(** ** One measurement cycle *)

Lemma sendBufferDoneCb_settles (pf : Platform) (s : State) (fStatus : bool) :
  fStatus = true \/ IsProvisioned s = true ->
  sendBufferDoneCb pf s fStatus
  = os_setTimedCallback s (sec2osticks pf CATCFG_T_SETTLE) settleDoneCb_.
Proof.
  intros [-> | Hp]; unfold sendBufferDoneCb; [reflexivity|].
  rewrite Hp. destruct fStatus; reflexivity.
Qed.

(** X10. A cycle with light sleep.  After a send completes (with success,
    or with failure on a provisioned device), while the reboot deadline has
    not passed and the policy chooses light sleep: the settle callback is
    armed for [CATCFG_T_SETTLE]; when it fires the counters are updated and
    the wake callback is armed for the interval of the updated cycle (one
    tick under "quick light sleep"); when that fires the warm-up callback is
    armed for [CATCFG_T_WARMUP]; and when that fires exactly one uplink is
    sent, built from the readings of that moment, on port 1. *)
Theorem light_sleep_cycle (pf : Platform) (s : State) (fStatus : bool)
    (i1 i2 i3 : Inputs) :
  sendPending s = true ->
  fStatus = true \/ IsProvisioned s = true ->
  uint32 (millis i1) <= gRebootMs s ->
  checkDeepSleep pf (OperatingFlags s) (Serial_dtr i1) = false ->
  let s1 := step pf s (EvSendDone fStatus) in
  let s2 := step pf s1 (EvTimer i1) in
  let s3 := step pf s2 (EvTimer i2) in
  let s4 := step pf s3 (EvTimer i3) in
  sensorJob s1 = Some (sec2osticks pf CATCFG_T_SETTLE, settleDoneCb_) /\
  gTxCycle s2 = gTxCycle (updateSleepCounters s) /\
  gTxCycleCount s2 = gTxCycleCount (updateSleepCounters s) /\
  sensorJob s2
    = Some (if flag_set (OperatingFlags s) (fQuickLightSleep pf) then 1
            else sec2osticks pf (CATCFG_GetInterval (gTxCycle s2)),
            sleepDoneCb_) /\
  sensorJob s3 = Some (sec2osticks pf CATCFG_T_WARMUP, warmupDoneCb_) /\
  actions s4
    = ASendBuffer (fillBuffer (fProximity s) (readings i3))
        (flag_set (OperatingFlags s) (fConfirmedUplink pf)) 1 :: actions s /\
  sendPending s4 = true /\ sensorJob s4 = None.
Proof.
  intros Hpend Hok Hms Hlight. cbv zeta.
  assert (E1 : step pf s (EvSendDone fStatus)
               = os_setTimedCallback (with_pending s false)
                   (sec2osticks pf CATCFG_T_SETTLE) settleDoneCb_).
  { cbn [step]. rewrite Hpend. apply sendBufferDoneCb_settles. exact Hok. }
  rewrite E1. cbn [step sensorJob os_setTimedCallback with_job run_callback].
  unfold settleDoneCb, updateSleepCounters.
  cbn -[Z.gtb Z.eqb Z.mul Z.sub uint32 CATCFG_GetInterval sec2osticks fillBuffer].
  destruct (Z.gtb_spec (uint32 (millis i1)) (gRebootMs s)) as [|_]; [lia|].
  rewrite Hlight.
  destruct (g_fPrintedSleeping s);
    cbn -[Z.gtb Z.eqb Z.mul Z.sub uint32 CATCFG_GetInterval sec2osticks fillBuffer];
    destruct (gTxCycleCount s >? 1), (gTxCycleCount s =? 1);
    cbn -[Z.gtb Z.eqb Z.mul Z.sub uint32 CATCFG_GetInterval sec2osticks fillBuffer];
    repeat split; reflexivity.
Qed.

Lemma light_sleep_cycle_witness :
  sendPending sample_state = true /\
  (true = true \/ IsProvisioned sample_state = true) /\
  uint32 (millis sample_inputs) <= gRebootMs sample_state /\
  checkDeepSleep sample_platform (OperatingFlags sample_state)
    (Serial_dtr sample_inputs) = false /\
  let s4 := run sample_platform sample_state
              [EvSendDone true; EvTimer sample_inputs; EvTimer sample_inputs;
               EvTimer sample_inputs] in
  actions s4
    = [ASendBuffer (fillBuffer true scenario_readings) false 1] /\
  sendPending s4 = true /\ sensorJob s4 = None.
Proof.
  split; [reflexivity|]. split; [left; reflexivity|].
  split; [vm_compute; discriminate|]. split; [reflexivity|].
  destruct (light_sleep_cycle sample_platform sample_state true
              sample_inputs sample_inputs sample_inputs
              eq_refl (or_introl eq_refl)
              ltac:(vm_compute; discriminate) eq_refl)
    as (_ & _ & _ & _ & _ & H6 & H7 & H8).
  split; [exact H6|]. split; [exact H7 | exact H8].
Defined.

(** X11. A cycle with deep sleep.  Under the same conditions but with the
    policy choosing deep sleep, the settle callback itself suspends the
    device, for the interval of the updated cycle or, under the deep-sleep
    test flag, of the 30-second test cycle, arms the warm-up callback on
    wake, and the next timer expiry sends exactly one uplink. *)
Theorem deep_sleep_cycle (pf : Platform) (s : State) (fStatus : bool)
    (i1 i2 : Inputs) :
  sendPending s = true ->
  fStatus = true \/ IsProvisioned s = true ->
  uint32 (millis i1) <= gRebootMs s ->
  checkDeepSleep pf (OperatingFlags s) (Serial_dtr i1) = true ->
  let s1 := step pf s (EvSendDone fStatus) in
  let s2 := step pf s1 (EvTimer i1) in
  let s3 := step pf s2 (EvTimer i2) in
  let slept :=
    CATCFG_GetInterval
      (if flag_set (OperatingFlags s) (fDeepSleepTest pf)
       then CATCFG_T_CYCLE_TEST else gTxCycle (updateSleepCounters s)) in
  actions s2 = ASleep slept :: actions s /\
  1 <= slept /\
  g_fPrintedSleeping s2 = true /\
  sensorJob s2 = Some (sec2osticks pf CATCFG_T_WARMUP, warmupDoneCb_) /\
  actions s3
    = ASendBuffer (fillBuffer (fProximity s) (readings i2))
        (flag_set (OperatingFlags s) (fConfirmedUplink pf)) 1
      :: ASleep slept :: actions s /\
  sendPending s3 = true /\ sensorJob s3 = None.
Proof.
  intros Hpend Hok Hms Hdeep. cbv zeta.
  assert (E1 : step pf s (EvSendDone fStatus)
               = os_setTimedCallback (with_pending s false)
                   (sec2osticks pf CATCFG_T_SETTLE) settleDoneCb_).
  { cbn [step]. rewrite Hpend. apply sendBufferDoneCb_settles. exact Hok. }
  rewrite E1. cbn [step sensorJob os_setTimedCallback with_job run_callback].
  unfold settleDoneCb, updateSleepCounters.
  cbn -[Z.gtb Z.eqb Z.mul Z.sub uint32 CATCFG_GetInterval sec2osticks fillBuffer].
  destruct (Z.gtb_spec (uint32 (millis i1)) (gRebootMs s)) as [|_]; [lia|].
  rewrite Hdeep.
  assert (Hone : forall x, 1 <= CATCFG_GetInterval x).
  { intros x. unfold CATCFG_GetInterval. change CATCFG_T_OVERHEAD with 10.
    destruct (Z.ltb_spec x (10 + 1)); lia. }
  destruct (g_fPrintedSleeping s) eqn:Hpr;
    cbn -[Z.gtb Z.eqb Z.mul Z.sub uint32 CATCFG_GetInterval sec2osticks fillBuffer];
    destruct (gTxCycleCount s >? 1), (gTxCycleCount s =? 1);
    cbn -[Z.gtb Z.eqb Z.mul Z.sub uint32 CATCFG_GetInterval sec2osticks fillBuffer];
    repeat split; try reflexivity; try exact Hpr; apply Hone.
Qed.

Lemma deep_sleep_cycle_witness :
  let s := mkState 360 0 2147483647 true true None 1 true true [] in
  sendPending s = true /\
  (false = true \/ IsProvisioned s = true) /\
  uint32 (millis sample_inputs) <= gRebootMs s /\
  checkDeepSleep sample_platform (OperatingFlags s) (Serial_dtr sample_inputs) = true /\
  actions (run sample_platform s
             [EvSendDone false; EvTimer sample_inputs; EvTimer sample_inputs])
  = [ASendBuffer (fillBuffer true scenario_readings) false 1; ASleep 350].
Proof.
  cbv zeta.
  split; [reflexivity|]. split; [right; reflexivity|].
  split; [vm_compute; discriminate|]. split; [reflexivity|].
  destruct (deep_sleep_cycle sample_platform
              (mkState 360 0 2147483647 true true None 1 true true [])
              false sample_inputs sample_inputs
              eq_refl (or_intror eq_refl)
              ltac:(vm_compute; discriminate) eq_refl)
    as (_ & _ & _ & _ & H5 & _).
  exact H5.
Defined.

(** ** Reboot check *)

(** X12. Whatever deadline is stored, the settle callback restarts the
    device exactly when the 32-bit millisecond count exceeds it, before it
    prints, counts or sleeps; and over any sequence of events in which the
    device is not restarted the stored deadline stays what it was. *)
Theorem reboot_check_against_fixed_deadline (pf : Platform) (s : State)
    (inp : Inputs) (evs : list Event) :
  (settleDoneCb pf s inp = SystemReset <-> uint32 (millis inp) > gRebootMs s) /\
  (uint32 (millis inp) <= gRebootMs s ->
   exists s', settleDoneCb pf s inp = Continue s' /\ gRebootMs s' = gRebootMs s) /\
  (gRebootMs (run pf s evs) = gRebootMs s \/
   exists evs1 ev evs2 inp',
     evs = evs1 ++ ev :: evs2 /\
     step pf (run pf s evs1) ev
     = setup pf (OperatingFlags (run pf s evs1)) (IsProvisioned (run pf s evs1))
         (actions (run pf s evs1)) inp').
Proof.
  split; [|split].
  - unfold settleDoneCb.
    destruct (Z.gtb_spec (uint32 (millis inp)) (gRebootMs s)) as [Hgt | Hle].
    + split; [intros _; lia | reflexivity].
    + split; [discriminate | lia].
  - intros Hle. destruct (settleDoneCb pf s inp) as [s'|] eqn:E.
    + exists s'. split; [reflexivity|]. eapply settleDoneCb_keeps_deadline. exact E.
    + exfalso. unfold settleDoneCb in E.
      destruct (Z.gtb_spec (uint32 (millis inp)) (gRebootMs s)); [lia | discriminate].
  - assert (Hstep : forall x ev,
              gRebootMs (step pf x ev) = gRebootMs x \/
              exists inp', step pf x ev
                           = setup pf (OperatingFlags x) (IsProvisioned x) (actions x) inp').
    { intros x ev.
      destruct ev as [inp' | fStatus | port msg | inp' | inp' | p]; cbn [step].
      - destruct (sensorJob x) as [[d cb]|]; [|left; reflexivity].
        destruct cb; cbn [run_callback].
        + destruct (settleDoneCb pf (with_job x None) inp') as [x'|] eqn:E.
          * left. apply settleDoneCb_keeps_deadline in E. exact E.
          * right. exists inp'. reflexivity.
        + left. reflexivity.
        + left. reflexivity.
        + left. reflexivity.
      - left. destruct (sendPending x); [|reflexivity].
        rewrite sendBufferDoneCb_keeps_deadline. reflexivity.
      - left. apply receiveMessage_keeps_deadline.
      - left. reflexivity.
      - right. exists inp'. reflexivity.
      - left. reflexivity. }
    induction evs as [|ev evs IH] using rev_ind; [left; reflexivity|].
    assert (Hrun : forall l x e, run pf x (l ++ [e]) = step pf (run pf x l) e).
    { induction l as [|a l IHl]; intros x e; [reflexivity|]. cbn [run app]. apply IHl. }
    rewrite Hrun.
    destruct (Hstep (run pf s evs) ev) as [Hkeep | [inp' Hre]].
    + destruct IH as [IH | (evs1 & e & evs2 & inp' & -> & Hre)].
      * left. rewrite Hkeep. exact IH.
      * right. exists evs1, e, (evs2 ++ [ev]), inp'.
        split; [rewrite <- app_assoc; reflexivity | exact Hre].
    + right. exists evs, ev, [], inp'. split; [reflexivity | exact Hre].
Qed.

(** ** The decoder on arbitrary payloads *)

Lemma index_app (bytes extra : list Z) (i : nat) :
  (i < length bytes)%nat -> JS.index (bytes ++ extra) i = JS.index bytes i.
Proof. intros H. unfold JS.index. rewrite nth_error_app1 by exact H. reflexivity. Qed.

Lemma DecodeU16_app (bytes extra : list Z) (i : nat) :
  (i + 2 <= length bytes)%nat ->
  fst (DecodeU16 (mkParse (bytes ++ extra) i)) = fst (DecodeU16 (mkParse bytes i)).
Proof.
  intros H. unfold DecodeU16. cbn [fst Parse_bytes Parse_i].
  rewrite !index_app by lia. reflexivity.
Qed.

Lemma DecodeI16_app (bytes extra : list Z) (i : nat) :
  (i + 2 <= length bytes)%nat ->
  fst (DecodeI16 (mkParse (bytes ++ extra) i)) = fst (DecodeI16 (mkParse bytes i)).
Proof.
  intros H. pose proof (DecodeU16_app bytes extra i H) as E.
  unfold DecodeI16, DecodeU16 in *. cbn [fst Parse_bytes Parse_i] in *.
  rewrite E. reflexivity.
Qed.

Lemma DecodeV_app (bytes extra : list Z) (i : nat) :
  (i + 2 <= length bytes)%nat ->
  fst (DecodeV (mkParse (bytes ++ extra) i)) = fst (DecodeV (mkParse bytes i)).
Proof.
  intros H. pose proof (DecodeI16_app bytes extra i H) as E.
  unfold DecodeV, DecodeI16, DecodeU16 in *. cbn [fst Parse_bytes Parse_i] in *.
  rewrite E. reflexivity.
Qed.

Lemma next_byte_app (bytes extra : list Z) (i : nat) :
  (i + 1 <= length bytes)%nat ->
  fst (next_byte (mkParse (bytes ++ extra) i)) = fst (next_byte (mkParse bytes i)).
Proof.
  intros H. unfold next_byte. cbn [fst Parse_bytes Parse_i].
  apply index_app. lia.
Qed.

Ltac expose_flags :=
  unfold read_if, consumed, offset;
  cbn [list_sum fold_right map filter all_tags tag_bit Z.ltb Z.compare
       Pos.compare Pos.compare_cont];
  unfold width_if_flagged, flagged;
  change (tag_mask BatteryVoltage) with 0x1;
  change (tag_mask BusVoltage) with 0x2;
  change (tag_mask BootCount) with 0x4;
  change (tag_mask SarCh0) with 0x8;
  change (tag_mask SarCh1) with 0x10;
  change (tag_mask SarCh2) with 0x20;
  change (tag_mask HallAmplitude) with 0x40.

Lemma read_fields_app (flags : jsval Z) (bytes extra : list Z) :
  (consumed flags <= length bytes)%nat ->
  read_if flags BatteryVoltage DecodeV (bytes ++ extra)
    = read_if flags BatteryVoltage DecodeV bytes /\
  read_if flags BusVoltage DecodeV (bytes ++ extra)
    = read_if flags BusVoltage DecodeV bytes /\
  read_if flags BootCount next_byte (bytes ++ extra)
    = read_if flags BootCount next_byte bytes /\
  read_if flags SarCh0 DecodeU16 (bytes ++ extra)
    = read_if flags SarCh0 DecodeU16 bytes /\
  read_if flags SarCh1 DecodeU16 (bytes ++ extra)
    = read_if flags SarCh1 DecodeU16 bytes /\
  read_if flags SarCh2 DecodeU16 (bytes ++ extra)
    = read_if flags SarCh2 DecodeU16 bytes /\
  read_if flags HallAmplitude DecodeI16 (bytes ++ extra)
    = read_if flags HallAmplitude DecodeI16 bytes.
Proof.
  expose_flags.
  destruct (JS.truthy (JS.and flags 0x1)), (JS.truthy (JS.and flags 0x2)),
    (JS.truthy (JS.and flags 0x4)), (JS.truthy (JS.and flags 0x8)),
    (JS.truthy (JS.and flags 0x10)), (JS.truthy (JS.and flags 0x20)),
    (JS.truthy (JS.and flags 0x40));
    cbn [tag_width Nat.add]; intros H;
    rewrite ?DecodeV_app, ?DecodeU16_app, ?DecodeI16_app, ?next_byte_app
      by (cbn [Nat.add]; lia);
    repeat split.
Qed.

(** X13. Bytes after the last flagged field are ignored: a payload that is
    not truncated decodes to the same result whatever is appended to it. *)
Theorem Decoder_ignores_trailing_bytes (bytes extra : list Z) (port : Z) :
  truncated bytes = false ->
  Decoder (bytes ++ extra) port = Decoder bytes port.
Proof.
  unfold truncated. intros H. apply Nat.ltb_ge in H.
  assert (H2 : (2 <= length bytes)%nat) by (unfold consumed in H; lia).
  unfold Decoder. rewrite !Decoder_fields_closed_form. cbn [fst].
  rewrite !index_app by lia.
  destruct (read_fields_app (JS.index bytes 1) bytes extra H)
    as (-> & -> & -> & -> & -> & -> & ->).
  reflexivity.
Qed.

Lemma Decoder_ignores_trailing_bytes_witness :
  truncated [0x2f; 0x03; 0x34; 0xcd; 0x50; 0x00] = false /\
  Decoder ([0x2f; 0x03; 0x34; 0xcd; 0x50; 0x00] ++ [0xde; 0xad]) 1
  = Decoder [0x2f; 0x03; 0x34; 0xcd; 0x50; 0x00] 1.
Proof.
  split; [reflexivity|].
  apply (Decoder_ignores_trailing_bytes [0x2f; 0x03; 0x34; 0xcd; 0x50; 0x00]
           [0xde; 0xad] 1).
  reflexivity.
Defined.

Lemma flagged_ignores_bit7 (f : Z) (t : FieldTag) :
  flagged (Num (Z.lor f 0x80)) t = flagged (Num f) t.
Proof.
  unfold flagged, JS.and, JS.to_int32.
  rewrite Z.land_lor_distr_l.
  destruct t; cbn [tag_mask tag_bit]; rewrite Z.lor_0_r; reflexivity.
Qed.

(** X14. The reserved bit 7 of the flags byte is ignored: a payload decodes
    to the same result with that bit set as with it clear. *)
Theorem Decoder_ignores_bit7 (fmt f : Z) (fields : list Z) (port : Z) :
  Decoder (fmt :: Z.lor f 0x80 :: fields) port = Decoder (fmt :: f :: fields) port.
Proof.
  unfold Decoder. rewrite !Decoder_fields_closed_form. cbn [fst].
  change (JS.index (fmt :: Z.lor f 0x80 :: fields) 0) with (Num fmt).
  change (JS.index (fmt :: f :: fields) 0) with (Num fmt).
  change (JS.index (fmt :: Z.lor f 0x80 :: fields) 1) with (Num (Z.lor f 0x80)).
  change (JS.index (fmt :: f :: fields) 1) with (Num f).
  unfold read_if, offset, width_if_flagged.
  cbn [list_sum fold_right map filter all_tags tag_bit Z.ltb Z.compare
       Pos.compare Pos.compare_cont].
  rewrite !flagged_ignores_bit7.
  destruct (flagged (Num f) BatteryVoltage), (flagged (Num f) BusVoltage),
    (flagged (Num f) BootCount), (flagged (Num f) SarCh0),
    (flagged (Num f) SarCh1), (flagged (Num f) SarCh2),
    (flagged (Num f) HallAmplitude); reflexivity.
Qed.

Lemma index_is_byte (bytes : list Z) (i : nat) :
  Forall is_byte bytes ->
  JS.index bytes i = Undefined \/ exists b, JS.index bytes i = Num b /\ 0 <= b < 256.
Proof.
  intros H. unfold JS.index. destruct (nth_error bytes i) as [b|] eqn:E.
  - right. exists b. split; [reflexivity|].
    apply nth_error_In in E. rewrite Forall_forall in H. exact (H b E).
  - left. reflexivity.
Qed.

Lemma be16_range (hi lo : Z) :
  0 <= hi < 256 -> 0 <= lo < 256 -> 0 <= be16 hi lo <= 65535.
Proof.
  intros Hh Hl. unfold be16. rewrite Z.shiftl_mul_pow2 by lia.
  change (2 ^ 8) with 256. lia.
Qed.

Lemma DecodeU16_range (bytes : list Z) (i : nat) :
  Forall is_byte bytes ->
  fst (DecodeU16 (mkParse bytes i)) = NaN \/
  exists v, fst (DecodeU16 (mkParse bytes i)) = Num v /\ 0 <= v <= 65535.
Proof.
  intros H. unfold DecodeU16. cbn [fst Parse_bytes Parse_i].
  destruct (index_is_byte bytes (i + 1) H) as [-> | (lo & -> & Hlo)];
    [left; reflexivity|].
  destruct (index_is_byte bytes i H) as [-> | (hi & -> & Hhi)]; right.
  - exists lo. split; [reflexivity | lia].
  - exists (be16 hi lo). split; [reflexivity | apply be16_range; assumption].
Qed.

Lemma sign16_range (raw : Z) :
  0 <= raw <= 65535 -> -32768 <= sign16 raw <= 32767.
Proof.
  intros H. unfold sign16. rewrite land_0x8000 by lia.
  destruct (Z.leb_spec 32768 raw); lia.
Qed.

Lemma DecodeI16_range (bytes : list Z) (i : nat) :
  Forall is_byte bytes ->
  fst (DecodeI16 (mkParse bytes i)) = NaN \/
  exists v, fst (DecodeI16 (mkParse bytes i)) = Num v /\ -32768 <= v <= 32767.
Proof.
  intros H. unfold DecodeI16.
  destruct (DecodeU16 (mkParse bytes i)) as [raw P] eqn:E.
  pose proof (DecodeU16_range bytes i H) as Hr. rewrite E in Hr. cbn [fst] in *.
  destruct Hr as [-> | (v & -> & Hv)]; [left; reflexivity|].
  right. exists (sign16 v). split; [|apply sign16_range; exact Hv].
  unfold sign16, JS.and, JS.to_int32.
  destruct (JS.truthy (Z.land v 32768)); reflexivity.
Qed.

Lemma DecodeV_range (bytes : list Z) (i : nat) :
  Forall is_byte bytes ->
  volts_or_NaN (Some (fst (DecodeV (mkParse bytes i)))).
Proof.
  intros H. unfold DecodeV.
  destruct (DecodeI16 (mkParse bytes i)) as [v P] eqn:E.
  pose proof (DecodeI16_range bytes i H) as Hr. rewrite E in Hr. cbn [fst] in *.
  destruct Hr as [-> | (n & -> & Hn)]; [exact I|].
  cbn [JS.div4096 volts_or_NaN].
  split; [exists n; split; [exact Hn | reflexivity]|].
  unfold Qle, Qlt, Qdiv, Qmult, Qinv, inject_Z; cbn. lia.
Qed.

(** X15. On a payload made of bytes, every property of the decoded object
    is within the range of its field or marks a read past the end: SAR
    counts are [NaN] or in 0..65535, the amplitude is [NaN] or in
    -32768..32767, a voltage is [NaN] or a signed 16-bit count over 4096 (so
    at least -8 V and below 8 V), and the boot counter is [undefined] or a
    byte. *)
Theorem Decoder_value_ranges (bytes : list Z) (port : Z) (d : Decoded) :
  Forall is_byte bytes ->
  Decoder bytes port = Some d ->
  volts_or_NaN (vBat d) /\ volts_or_NaN (vBus d) /\
  byte_or_undefined (boot d) /\
  u16_or_NaN (sarCh0 d) /\ u16_or_NaN (sarCh1 d) /\ u16_or_NaN (sarCh2 d) /\
  i16_or_NaN (amplitude d).
Proof.
  intros Hb. unfold Decoder.
  destruct (negb (port =? 1)); [discriminate|].
  destruct (negb (JS.strict_eq (JS.index bytes 0) 47)); [discriminate|].
  rewrite Decoder_fields_closed_form. cbn [fst]. intros H. injection H as <-.
  cbn [vBat vBus boot sarCh0 sarCh1 sarCh2 amplitude]. unfold read_if.
  assert (HU : forall i, u16_or_NaN (Some (fst (DecodeU16 (mkParse bytes i))))).
  { intros i. destruct (DecodeU16_range bytes i Hb) as [-> | (v & -> & Hv)];
      [exact I | exact Hv]. }
  assert (HI : forall i, i16_or_NaN (Some (fst (DecodeI16 (mkParse bytes i))))).
  { intros i. destruct (DecodeI16_range bytes i Hb) as [-> | (v & -> & Hv)];
      [exact I | exact Hv]. }
  assert (HB : forall i, byte_or_undefined (Some (fst (next_byte (mkParse bytes i))))).
  { intros i. unfold next_byte. cbn [fst Parse_bytes Parse_i].
    destruct (index_is_byte bytes i Hb) as [-> | (b & -> & Hv)]; [exact I | exact Hv]. }
  repeat split;
    match goal with
    | |- context [flagged ?f ?t] => destruct (flagged f t)
    end;
    first [exact I | apply DecodeV_range; exact Hb | apply HU | apply HI | apply HB].
Qed.

Lemma Decoder_value_ranges_witness :
  Forall is_byte [0x2f; 0x7f; 0xff; 0xff; 0x80; 0x00; 0x07; 0xff; 0xff; 0x00] /\
  volts_or_NaN (Some (Num (inject_Z (-1) / 4096)%Q)) /\
  volts_or_NaN (Some (Num (inject_Z (-32768) / 4096)%Q)) /\
  byte_or_undefined (Some (Num 7)) /\
  u16_or_NaN (Some (Num 65535)) /\ u16_or_NaN (Some NaN) /\ u16_or_NaN (Some NaN) /\
  i16_or_NaN (Some NaN).
Proof.
  assert (Hb : Forall is_byte
                 [0x2f; 0x7f; 0xff; 0xff; 0x80; 0x00; 0x07; 0xff; 0xff; 0x00])
    by (repeat constructor; unfold is_byte; lia).
  split; [exact Hb|].
  exact (Decoder_value_ranges
           [0x2f; 0x7f; 0xff; 0xff; 0x80; 0x00; 0x07; 0xff; 0xff; 0x00] 1 _
           Hb eq_refl).
Defined.

(** ** Decoding loses nothing *)

Lemma uint8_shiftr_be16 (hi lo : Z) :
  0 <= hi < 256 -> 0 <= lo < 256 ->
  uint8 (Z.shiftr (be16 hi lo) 8) = hi /\ uint8 (be16 hi lo) = lo.
Proof.
  intros Hh Hl. unfold be16, uint8.
  rewrite Z.shiftr_div_pow2, Z.shiftl_mul_pow2 by lia. change (2 ^ 8) with 256.
  split.
  - replace ((hi * 256 + lo) / 256) with hi
      by (apply Z.div_unique with (r := lo); lia).
    apply Z.mod_small. lia.
  - symmetry. apply Z.mod_unique_pos with (q := hi); lia.
Qed.

Lemma uint8_shiftr_sign16 (hi lo : Z) :
  0 <= hi < 256 -> 0 <= lo < 256 ->
  uint8 (Z.shiftr (sign16 (be16 hi lo)) 8) = hi /\ uint8 (sign16 (be16 hi lo)) = lo.
Proof.
  intros Hh Hl.
  destruct (uint8_shiftr_be16 hi lo Hh Hl) as [E1 E2].
  unfold sign16. destruct (JS.truthy (Z.land (be16 hi lo) 32768)); [|split; assumption].
  revert E1 E2. unfold uint8. rewrite !Z.shiftr_div_pow2 by lia.
  change (2 ^ 8) with 256. intros E1 E2.
  replace (be16 hi lo + - 65536) with (be16 hi lo + (-256) * 256) by lia.
  rewrite Z.div_add by lia. split.
  - replace (be16 hi lo / 256 + -256) with (be16 hi lo / 256 + (-1) * 256) by lia.
    rewrite Z.mod_add by lia. exact E1.
  - rewrite Z.mod_add by lia. exact E2.
Qed.

Lemma Qnum_div4096 (n : Z) : Qnum (inject_Z n / 4096)%Q = n.
Proof. unfold Qdiv, Qmult, Qinv, inject_Z. cbn. apply Z.mul_1_r. Qed.

Ltac forall_bytes :=
  repeat match goal with
    | H : Forall is_byte (_ :: _) |- _ =>
        apply Forall_cons_iff in H; destruct H as [? H]
    | H : Forall is_byte [] |- _ => clear H
    | H : is_byte _ |- _ => unfold is_byte in H
    end.

Ltac explode_list H :=
  repeat match type of H with
    | length ?l = O => destruct l; [clear H | discriminate H]
    | length ?l = S _ =>
        destruct l as [|? ?];
        [discriminate H | cbn [length] in H; apply Nat.succ_inj in H]
    end.

Ltac rebuild_fields :=
  repeat match goal with
    | |- context [Qnum (inject_Z ?n / 4096)%Q] => rewrite (Qnum_div4096 n)
    end;
  repeat match goal with
    | |- context [uint8 (Z.shiftr (sign16 (be16 ?h ?l)) 8)] =>
        destruct (uint8_shiftr_sign16 h l ltac:(lia) ltac:(lia)) as [-> ->]
    | |- context [uint8 (Z.shiftr (be16 ?h ?l) 8)] =>
        destruct (uint8_shiftr_be16 h l ltac:(lia) ltac:(lia)) as [-> ->]
    end.

Ltac rebuild_payload Hlen Hb :=
  match type of Hlen with
  | context [consumed ?f] =>
      let c := eval vm_compute in (consumed f) in
      change (consumed f) with c in Hlen
  end;
  cbn [length] in Hlen; do 2 apply Nat.succ_inj in Hlen;
  explode_list Hlen; forall_bytes;
  unfold Decoder_fields;
  erewrite next_byte_at by reflexivity;
  cbv zeta; cbn [fst snd];
  do 7 decode_field;
  unfold payload_of;
  cbn [fst snd vBat vBus boot sarCh0 sarCh1 sarCh2 amplitude
       set_vBat set_vBus set_boot set_sarCh0 set_sarCh1 set_sarCh2 set_amplitude
       empty_object bit_if is_Some bytes_of_volts bytes_of_number byte_of_boot
       app Z.lor Pos.lor Pos.succ];
  rebuild_fields;
  reflexivity.

Ltac each_flags f lo n Hlen Hb :=
  lazymatch n with
  | O => exfalso; lia
  | S ?n' =>
      let Hne := fresh "Hne" in
      destruct (Z.eq_dec f lo) as [-> | Hne];
      [ rebuild_payload Hlen Hb
      | let lo' := eval compute in (lo + 1) in
        assert (lo' <= f) by lia; clear Hne;
        each_flags f lo' n' Hlen Hb ]
  end.

Lemma land_0x80_small (f : Z) : 0 <= f < 256 -> Z.land f 0x80 = 0 -> f < 128.
Proof.
  intros Hf H.
  destruct (Z.lt_ge_cases f 128) as [|Hge]; [assumption|exfalso].
  assert (Hbit : Z.testbit f 7 = true).
  { rewrite Z.testbit_eqb by lia. change (2 ^ 7) with 128.
    assert (f / 128 = 1) as ->
      by (symmetry; apply Z.div_unique with (r := f - 128); lia).
    reflexivity. }
  assert (Hb : Z.testbit (Z.land f 0x80) 7 = true)
    by (rewrite Z.land_spec, Hbit; reflexivity).
  rewrite H in Hb. discriminate.
Qed.

(** The decoded object determines the payload: [payload_of] undoes the
    decoder on well-formed payloads. *)
Lemma payload_of_decoded (bytes : list Z) :
  well_formed bytes -> payload_of (fst (Decoder_fields bytes)) = bytes.
Proof.
  intros (Hb & Hfmt & Hbit & Hlen).
  destruct bytes as [|fmt [|f rest]];
    [discriminate Hfmt | cbn in Hlen; discriminate Hlen |].
  injection Hfmt as ->.
  change (JS.index (47 :: f :: rest) 1) with (Num f) in Hlen, Hbit.
  assert (Hf : 0 <= f < 128).
  { pose proof Hb as Hb'. apply Forall_cons_iff in Hb' as [_ Hb'].
    apply Forall_cons_iff in Hb' as [Hfb _]. unfold is_byte in Hfb.
    split; [lia|]. apply land_0x80_small; assumption. }
  clear Hbit.
  each_flags f 0 128%nat Hlen Hb.
Qed.

Lemma Decoder_well_formed (bytes : list Z) :
  well_formed bytes -> Decoder bytes 1 = Some (fst (Decoder_fields bytes)).
Proof.
  intros (_ & Hfmt & _). unfold Decoder. rewrite Hfmt. reflexivity.
Qed.

(** X16. Decoding a well-formed payload loses nothing: the payload is
    accepted, it can be rebuilt from the decoded object alone, and so no
    other well-formed payload decodes to the same object. *)
Theorem Decoder_loses_nothing (bytes : list Z) :
  well_formed bytes ->
  exists d,
    Decoder bytes 1 = Some d /\
    payload_of d = bytes /\
    forall bytes', well_formed bytes' -> Decoder bytes' 1 = Some d -> bytes' = bytes.
Proof.
  intros Hwf. exists (fst (Decoder_fields bytes)).
  split; [apply Decoder_well_formed; exact Hwf|].
  split; [apply payload_of_decoded; exact Hwf|].
  intros bytes' Hwf' Hd.
  rewrite (Decoder_well_formed bytes' Hwf') in Hd. injection Hd as Hd.
  rewrite <- (payload_of_decoded bytes' Hwf'), Hd.
  apply payload_of_decoded. exact Hwf.
Qed.

Lemma Decoder_loses_nothing_witness :
  well_formed (fillBuffer true scenario_readings) /\
  exists d,
    Decoder (fillBuffer true scenario_readings) 1 = Some d /\
    payload_of d = fillBuffer true scenario_readings /\
    forall bytes', well_formed bytes' -> Decoder bytes' 1 = Some d ->
                   bytes' = fillBuffer true scenario_readings.
Proof.
  assert (Hwf : well_formed (fillBuffer true scenario_readings)).
  { unfold well_formed. split; [|repeat split].
    repeat constructor; unfold is_byte; cbn; lia. }
  split; [exact Hwf|].
  exact (Decoder_loses_nothing (fillBuffer true scenario_readings) Hwf).
Defined.

(** ** Suspend and resume *)

(** X17. Suspend and resume are symmetric.  With [Serial], [Wire] and
    [SPI] begun at boot, and the flash bus begun when a flash was found,
    [deepSleepPrepare] leaves all four interfaces ended (the flash bus
    having been ended by [setup_flash] when there is no flash), and
    [deepSleepRecovery] after it gives back the peripherals as they were
    after [setup_flash]. *)
Theorem deep_sleep_restores_peripherals (found : bool) (p0 : Peripherals) :
  Serial_begun p0 = true ->
  Wire_begun p0 = true ->
  SPI_begun p0 = true ->
  (found = true -> gSPI2_begun p0 = true) ->
  let '(fFlash, p) := setup_flash found p0 in
  fFlash = found /\
  deepSleepPrepare fFlash p = mkPeripherals false false false false /\
  deepSleepRecovery fFlash (deepSleepPrepare fFlash p) = p.
Proof.
  destruct p0 as [s w sp s2]. cbn. intros -> -> -> H2.
  destruct found; cbn.
  - rewrite (H2 eq_refl). repeat split.
  - repeat split.
Qed.

Lemma deep_sleep_restores_peripherals_witness :
  let p0 := mkPeripherals true true true true in
  Serial_begun p0 = true /\ Wire_begun p0 = true /\ SPI_begun p0 = true /\
  (true = true -> gSPI2_begun p0 = true) /\
  deepSleepPrepare true p0 = mkPeripherals false false false false /\
  deepSleepRecovery true (deepSleepPrepare true p0) = p0.
Proof.
  cbv zeta. split; [reflexivity|]. split; [reflexivity|]. split; [reflexivity|].
  split; [reflexivity|].
  destruct (deep_sleep_restores_peripherals true (mkPeripherals true true true true)
              eq_refl eq_refl eq_refl (fun _ => eq_refl)) as (_ & H1 & H2).
  split; [exact H1 | exact H2].
Defined.

(** ** What a downlink can touch *)

(** X18. A downlink changes nothing but the two cadence globals: whatever
    the port and the bytes, the armed callback, the send in flight, the
    record of collaborator calls, the reboot deadline, the operating flags,
    the provisioning, the sensor flag and the sleep-notice flag are as
    before; and on port 0 (a MAC message) the cadence is as before too. *)
Theorem downlink_only_touches_cadence (s : State) (port : Z) (pMessage : list Z) :
  let s' := snd (receiveMessage s port pMessage) in
  sensorJob s' = sensorJob s /\ sendPending s' = sendPending s /\
  actions s' = actions s /\ gRebootMs s' = gRebootMs s /\
  OperatingFlags s' = OperatingFlags s /\ IsProvisioned s' = IsProvisioned s /\
  fProximity s' = fProximity s /\ g_fPrintedSleeping s' = g_fPrintedSleeping s /\
  (fst (receiveMessage s port pMessage) <> RxAccepted -> s' = s) /\
  receiveMessage s 0 pMessage = (RxMacMessage, s).
Proof.
  cbv zeta. split; [|split; [|split; [|split; [|split; [|split; [|split; [|split;
    [|split; [|reflexivity]]]]]]]]];
    unfold receiveMessage;
    repeat match goal with
           | |- context [if ?c then _ else _] => destruct c
           end; cbn; try reflexivity; intros H; try reflexivity;
    exfalso; apply H; reflexivity.
Qed.
